(** * Storefront: checkout, order lifecycle and payment relay

    A shallow embedding of the stock / order workflow of
    [src/components/customerhomepage.jsx] and [src/components/admin.jsx]
    and of the two payment-relay handlers ([api/create-payment-intent.js],
    [server.cjs]).

    The hosted relational backend is modelled as a record of tables.  Tables
    that the code addresses by primary key are finite maps from keys to rows;
    tables it only appends to and filters ([order_items], [payments]) are
    lists of rows.  Every handler is a function from the store (and the
    client-side values it closes over) to the alert it raises and the store it
    leaves behind.  Prices and amounts are JavaScript numbers, that is IEEE 754
    binary64 values: they are primitive floats, added and multiplied as the
    code adds and multiplies them. *)

From Stdlib Require Import ZArith QArith PrimFloat String Ascii List Lia.
From Stdlib Require SpecFloat FloatOps.
From stdpp Require Import base option gmap strings list pretty.

Local Open Scope string_scope.
Local Open Scope Z_scope.

(** ** JavaScript value helpers *)

Abbreviation id := positive.

(** [x || d] on a nullable integer column: [null] and [0] are falsy. *)
Definition num_or (d : Z) (x : option Z) : Z :=
  match x with
  | Some n => if Z.eqb n 0 then d else n
  | None => d
  end.

(** [x || d] on a nullable text column: [null] and the empty string are falsy. *)
Definition str_or (d : string) (x : option string) : string :=
  match x with
  | Some s => if String.eqb s "" then d else s
  | None => d
  end.

(** The JavaScript number that holds an integer: the integer itself up to
    2^53, the nearest binary64 value beyond. *)
Definition Z_to_float (z : Z) : float :=
  FloatOps.SF2Prim (SpecFloat.binary_normalize FloatOps.prec FloatOps.emax z 0 false).

(** [Number(p || 0)] on a nullable numeric column: [null], [0], [-0] and [NaN]
    are falsy. *)
Definition price_or0 (p : option float) : float :=
  match p with
  | Some x => if (PrimFloat.eqb x 0 || PrimFloat.is_nan x)%bool then 0%float else x
  | None => 0%float
  end.

(** Template-literal rendering of a nullable integer. *)
Definition show_num (x : option Z) : string :=
  match x with
  | Some n => pretty n
  | None => "null"
  end.

Definition lower_ascii (c : ascii) : ascii :=
  let n := nat_of_ascii c in
  if (Nat.leb 65 n && Nat.leb n 90)%bool then ascii_of_nat (n + 32) else c.

(** [String.prototype.toLowerCase] on the ASCII range.  The literals the code
    compares the result with contain no letter that a non-ASCII character
    lowers to, so the comparisons agree with the full Unicode mapping. *)
Fixpoint toLowerCase (s : string) : string :=
  match s with
  | EmptyString => EmptyString
  | String c r => String (lower_ascii c) (toLowerCase r)
  end.

(** [(s || "").toLowerCase()] *)
Definition status_lc (s : option string) : string := toLowerCase (str_or "" s).

(** [Set.prototype.add]: insertion order is kept, a present value is not
    added again. *)
Definition set_add (x : id) (s : list id) : list id :=
  if bool_decide (x ∈ s) then s else s ++ [x].

(** ** Rows and tables *)

Record product := Product {
  p_name : option string;
  p_description : option string;
  p_price : option float;
  p_category : option string;
  p_stock : option Z;
  p_img_url : option string
}.

Record variant := Variant {
  v_product_id : id;
  v_color : option string;
  v_size : option string;
  v_stock : option Z;
  v_img_url : option string
}.

Record cart_row := CartRow {
  cr_cart_id : option id;
  cr_product_id : option id;
  cr_product_variant_id : option id;
  cr_quantity : option Z
}.

(** An entry of the client's [cartItems] state: a [cart_items] row together
    with the product and variant rows joined to it when the cart was loaded. *)
Record cart_item := CartItem {
  ci_product_id : option id;
  ci_product_variant_id : option id;
  ci_quantity : option Z;
  ci_products : option product;
  ci_product_variants : option variant
}.

Record shipping := Shipping {
  shipping_address_id : option id;
  shipping_label : option string;
  shipping_full_name : option string;
  shipping_phone : option string;
  shipping_address_line : option string;
  shipping_city : option string;
  shipping_province : option string;
  shipping_postal_code : option string
}.

Record order := Order {
  o_user_id : id;
  o_total : float;
  o_status : option string;
  o_payment_status : string;
  o_payment_method : string;
  o_shipping : shipping
}.

Record order_item := OrderItem {
  oi_order_id : id;
  oi_product_id : option id;
  oi_product_variant_id : option id;
  oi_quantity : option Z;
  oi_price : float;
  oi_name : string;
  oi_color : string;
  oi_size : string;
  oi_img_url : string
}.

Record payment := Payment {
  pay_order_id : id;
  pay_amount : float;
  pay_method : string;
  pay_status : string;
  pay_transaction_id : option string
}.

Record address := Address {
  a_label : option string;
  a_full_name : option string;
  a_phone : option string;
  a_address_line : option string;
  a_city : option string;
  a_province : option string;
  a_postal_code : option string
}.

Record store := Store {
  products : gmap id product;
  product_variants : gmap id variant;
  orders : gmap id order;
  order_items : list order_item;
  payments : list payment;
  user_addresses : gmap id address;
  cart_items : gmap id cart_row
}.

Definition set_products (f : gmap id product → gmap id product) (st : store) : store :=
  Store (f (products st)) (product_variants st) (orders st) (order_items st)
        (payments st) (user_addresses st) (cart_items st).

Definition set_product_variants (f : gmap id variant → gmap id variant) (st : store) : store :=
  Store (products st) (f (product_variants st)) (orders st) (order_items st)
        (payments st) (user_addresses st) (cart_items st).

Definition set_orders (f : gmap id order → gmap id order) (st : store) : store :=
  Store (products st) (product_variants st) (f (orders st)) (order_items st)
        (payments st) (user_addresses st) (cart_items st).

(** The key the backend gives a newly inserted row: one not in the table. *)
Definition new_id {A} (m : gmap id A) : id := fresh (dom m).

(** ** Queries shared by the handlers *)

Definition with_stock (n : Z) (v : variant) : variant :=
  Variant (v_product_id v) (v_color v) (v_size v) (Some n) (v_img_url v).

Definition with_p_stock (n : Z) (p : product) : product :=
  Product (p_name p) (p_description p) (p_price p) (p_category p) (Some n) (p_img_url p).

(** [from("product_variants").select(..).eq("id", vid).single()] *)
Definition fetch_variant (vs : gmap id variant) (vid : option id) : option variant :=
  match vid with
  | Some k => vs !! k
  | None => None
  end.

(** [from("product_variants").select("stock").eq("product_id", pid)] followed by
    [reduce((s, v) => s + Number(v.stock || 0), 0)] *)
Definition sum_variant_stock (vs : gmap id variant) (pid : id) : Z :=
  map_fold (λ _ v s, if bool_decide (v_product_id v = pid)
                     then s + num_or 0 (v_stock v) else s) 0 vs.

(** [for (const pid of productIdsToRecalc) { ... update({ stock: total }).eq("id", pid) }] *)
Definition recalc_products (vs : gmap id variant) (pids : list id)
    (ps : gmap id product) : gmap id product :=
  fold_left (λ acc pid, alter (with_p_stock (sum_variant_stock vs pid)) pid acc) pids ps.

(** ** Checkout: [placeOrder] (customerhomepage.jsx) *)

Record payment_details := PaymentDetails {
  pd_id : option string;
  pd_status : option string
}.

Record profile_address := ProfileAddress {
  pa_full_name : option string;
  pa_phone : option string;
  pa_address_line : option string
}.

Record place_opts := PlaceOpts {
  opt_shipping_address_id : option id;
  opt_profile_address : option profile_address;
  opt_payment_method : string;
  opt_paymentDetails : option payment_details
}.

(** [placeOrder()] called without an argument. *)
Definition default_opts : place_opts := PlaceOpts None None "cod" None.

Inductive check_result :=
  | CheckOk
  | CheckFetchFailed
  | CheckShort (ci : cart_item) (v : variant).

(** Step 1: the loop over [variantChecks]. *)
Fixpoint check_stock (vs : gmap id variant) (cart : list cart_item) : check_result :=
  match cart with
  | [] => CheckOk
  | ci :: rest =>
      match fetch_variant vs (ci_product_variant_id ci) with
      | None => CheckFetchFailed
      | Some v =>
          if num_or 0 (v_stock v) <? num_or 0 (ci_quantity ci)
          then CheckShort ci v
          else check_stock vs rest
      end
  end.

Definition item_name (ci : cart_item) : string :=
  str_or "an item" (ci_products ci ≫= p_name).

Definition not_enough_msg (ci : cart_item) (v : variant) : string :=
  "Not enough stock for " ++ item_name ci ++ ". Available: " ++ show_num (v_stock v)
    ++ ", requested: " ++ show_num (ci_quantity ci).

(** Step 2, first loop: one read-modify-write of the variant per line item. *)
Definition deduct_step (acc : gmap id variant * list id) (ci : cart_item)
    : gmap id variant * list id :=
  match ci_product_variant_id ci with
  | None => acc
  | Some k =>
      match acc.1 !! k with
      | None => acc
      | Some v =>
          let newStock := Z.max 0 (num_or 0 (v_stock v) - num_or 0 (ci_quantity ci)) in
          (alter (with_stock newStock) k acc.1, set_add (v_product_id v) acc.2)
      end
  end.

Definition deduct_all (vs : gmap id variant) (cart : list cart_item)
    : gmap id variant * list id :=
  fold_left deduct_step cart (vs, []).

(** Step 3: [cartItems.reduce((s, it) => s + Number(it.products?.price || 0) * (it.quantity || 1), 0)] *)
Definition line_amount (it : cart_item) : float :=
  (price_or0 (ci_products it ≫= p_price) * Z_to_float (num_or 1 (ci_quantity it)))%float.

Definition order_total (cart : list cart_item) : float :=
  fold_left (λ s it, (s + line_amount it)%float) cart 0%float.

Definition null_shipping : shipping :=
  Shipping None None None None None None None None.

Definition shipping_snapshot (addrs : gmap id address) (o : place_opts) : shipping :=
  match opt_shipping_address_id o with
  | Some aid =>
      match addrs !! aid with
      | Some addr =>
          Shipping (Some aid) (a_label addr) (a_full_name addr) (a_phone addr)
                   (a_address_line addr) (a_city addr) (a_province addr) (a_postal_code addr)
      | None => null_shipping
      end
  | None =>
      match opt_profile_address o with
      | Some pa =>
          Shipping None None (pa_full_name pa) (pa_phone pa) (pa_address_line pa)
                   None None None
      | None => null_shipping
      end
  end.

(** [paymentDetails && paymentDetails.status === "succeeded" ? "paid" : "pending"] *)
Definition payment_status_of (pd : option payment_details) : string :=
  match pd with
  | Some d => if bool_decide (pd_status d = Some "succeeded") then "paid" else "pending"
  | None => "pending"
  end.

(** [paymentDetails?.id || null] *)
Definition transaction_id_of (pd : option payment_details) : option string :=
  match pd ≫= pd_id with
  | Some s => if String.eqb s "" then None else Some s
  | None => None
  end.

Definition snapshot_item (oid : id) (ci : cart_item) : order_item :=
  OrderItem oid (ci_product_id ci) (ci_product_variant_id ci) (ci_quantity ci)
    (price_or0 (ci_products ci ≫= p_price))
    (str_or "" (ci_products ci ≫= p_name))
    (str_or "" (ci_product_variants ci ≫= v_color))
    (str_or "" (ci_product_variants ci ≫= v_size))
    (str_or (str_or "https://via.placeholder.com/100" (ci_products ci ≫= p_img_url))
            (ci_product_variants ci ≫= v_img_url)).

(** [from("cart_items").delete().eq("cart_id", cartId)] *)
Definition clear_cart (cartId : option id) (rows : gmap id cart_row) : gmap id cart_row :=
  match cartId with
  | Some c => filter (λ kv, cr_cart_id kv.2 ≠ Some c) rows
  | None => rows
  end.

Definition placed_msg : string := "Order placed successfully — stock updated.".

Definition placeOrder (st : store) (user : option id) (cartId : option id)
    (cartItems : list cart_item) (o : place_opts) : string * store :=
  match user with
  | None => ("No user", st)
  | Some uid =>
      match cartItems with
      | [] => ("Cart empty", st)
      | _ =>
          match check_stock (product_variants st) cartItems with
          | CheckFetchFailed => ("Failed to validate stock for an item. Try again.", st)
          | CheckShort ci v => (not_enough_msg ci v, st)
          | CheckOk =>
              let '(vs, pids) := deduct_all (product_variants st) cartItems in
              let ps := recalc_products vs pids (products st) in
              let total := order_total cartItems in
              let ship := shipping_snapshot (user_addresses st) o in
              let oid := new_id (orders st) in
              let row := Order uid total (Some "processing")
                           (payment_status_of (opt_paymentDetails o))
                           (opt_payment_method o) ship in
              let pay := Payment oid total (opt_payment_method o)
                           (payment_status_of (opt_paymentDetails o))
                           (transaction_id_of (opt_paymentDetails o)) in
              (placed_msg,
               Store ps vs (<[oid := row]> (orders st))
                     (order_items st ++ map (snapshot_item oid) cartItems)
                     (payments st ++ [pay])
                     (user_addresses st)
                     (clear_cart cartId (cart_items st)))
          end
      end
  end.

(** ** Order lifecycle: [cancelOrder] (customerhomepage.jsx),
       [updateStatus] and [deleteOrder] (admin.jsx) *)

Definition with_status (s : option string) (o : order) : order :=
  Order (o_user_id o) (o_total o) s (o_payment_status o) (o_payment_method o) (o_shipping o).

(** [from("order_items").select("*").eq("order_id", orderId)] *)
Definition items_of (oid : id) (items : list order_item) : list order_item :=
  filter (λ it, oi_order_id it = oid) items.

(** One turn of the restock loop.  The customer handler skips an item with a
    null [product_variant_id] before it fetches; the admin handlers fetch
    with the null key, get no row and skip as well. *)
Definition restore_step (acc : gmap id variant * list id) (it : order_item)
    : gmap id variant * list id :=
  match oi_product_variant_id it with
  | None => acc
  | Some k =>
      match acc.1 !! k with
      | None => acc
      | Some v =>
          let newStock := num_or 0 (v_stock v) + num_or 0 (oi_quantity it) in
          (alter (with_stock newStock) k acc.1, set_add (v_product_id v) acc.2)
      end
  end.

(** The restock block shared by the three handlers: add every item's quantity
    back to its variant, then recompute the stock of the products touched. *)
Definition restore_stock (oid : id) (st : store) : store :=
  let '(vs, pids) :=
    fold_left restore_step (items_of oid (order_items st)) (product_variants st, []) in
  Store (recalc_products vs pids (products st)) vs (orders st) (order_items st)
        (payments st) (user_addresses st) (cart_items st).

(** [current === "cancelled" || current === "delivered" || current === "shipping"] *)
Definition cancel_blocked (current : string) : bool :=
  String.eqb current "cancelled" || String.eqb current "delivered"
  || String.eqb current "shipping".

Definition cancelOrder (st : store) (orderId : option id) (confirmed : bool)
    : option string * store :=
  match orderId with
  | None => (None, st)
  | Some oid =>
      if negb confirmed then (None, st)
      else
        let current := status_lc (orders st !! oid ≫= o_status) in
        if cancel_blocked current then (Some "This order cannot be cancelled", st)
        else
          let st1 := set_orders (alter (with_status (Some "cancelled")) oid) st in
          (Some "Order cancelled and stock restored (if applicable)", restore_stock oid st1)
  end.

(** [targetStatus === "cancelled" && (prevStatus === "pending" || prevStatus === "processing")] *)
Definition restock_on_cancel (prevStatus targetStatus : string) : bool :=
  String.eqb targetStatus "cancelled"
  && (String.eqb prevStatus "pending" || String.eqb prevStatus "processing").

Definition updateStatus (st : store) (orderId : id) (newStatus : option string)
    : string * store :=
  match orders st !! orderId with
  | None => ("Failed to update status", st)
  | Some currentOrder =>
      let prevStatus := status_lc (o_status currentOrder) in
      let targetStatus := status_lc newStatus in
      let st1 := set_orders (alter (with_status newStatus) orderId) st in
      ("Status updated",
       if restock_on_cancel prevStatus targetStatus then restore_stock orderId st1 else st1)
  end.

Definition deleteOrder (st : store) (orderId : id) : string * store :=
  let order := orders st !! orderId in
  let s := status_lc (order ≫= o_status) in
  let st1 :=
    if bool_decide (is_Some order) && (String.eqb s "pending" || String.eqb s "processing")
    then restore_stock orderId st else st in
  ("Order deleted", set_orders (delete orderId) st1).

(** ** Admin catalogue maintenance: [handleDeleteProduct], [handleEditSave] (admin.jsx) *)

(** The handler sends one write, the deletion of the [products] row. *)
Definition handleDeleteProduct (st : store) (pid : id) (confirmed : bool) : store :=
  if confirmed then set_products (delete pid) st else st.

(** What the storage collaborator answers to an upload: an error, with its
    [message] when it has one and the text [JSON.stringify] gives for it, or
    the public URL of the stored file. *)
Inductive upload :=
  | UploadFails (message : option string) (stringified : string)
  | UploadsTo (url : string).

Record form_variant := FormVariant {
  fv_id : option id;
  fv_color : string;
  fv_size : string;
  fv_stock : Z;
  fv_img_url : option string;
  fv_imgFile : option upload
}.

Record edit_form := EditForm {
  ef_id : id;
  ef_productData : product;
  ef_variants : list form_variant
}.

Record edit_acc := EditAcc {
  ea_variants : gmap id variant;
  ea_toInsert : list variant;
  ea_existing : list id;
  ea_urls : list (option string)
}.

(** [finalUrl]: the uploaded file's public URL when a file was picked, the
    variant's own [img_url] otherwise; [None] when the upload fails. *)
Definition final_url (fv : form_variant) : option (option string) :=
  match fv_imgFile fv with
  | Some (UploadFails _ _) => None
  | Some (UploadsTo url) => Some (Some url)
  | None => Some (fv_img_url fv)
  end.

(** The loop over the form's variants.  An upload failure returns from the
    handler; updates already sent stay. *)
Fixpoint edit_loop (pid : id) (fvs : list form_variant) (acc : edit_acc)
    : option string * edit_acc :=
  match fvs with
  | [] => (None, acc)
  | fv :: rest =>
      match final_url fv with
      | None =>
          (Some ("Image upload failed for variant " ++ fv_color fv ++ " " ++ fv_size fv), acc)
      | Some url =>
          let payload := Variant pid (Some (fv_color fv)) (Some (fv_size fv))
                                 (Some (fv_stock fv)) url in
          match fv_id fv with
          | Some k =>
              edit_loop pid rest
                (EditAcc (alter (λ _, payload) k (ea_variants acc)) (ea_toInsert acc)
                         (ea_existing acc ++ [k]) (ea_urls acc ++ [url]))
          | None =>
              edit_loop pid rest
                (EditAcc (ea_variants acc) (ea_toInsert acc ++ [payload])
                         (ea_existing acc) (ea_urls acc ++ [url]))
          end
      end
  end.

(** [from("product_variants").insert(rows)] *)
Definition insert_variants (rows : list variant) (vs : gmap id variant) : gmap id variant :=
  fold_left (λ m v, <[new_id m := v]> m) rows vs.

Definition with_p_img_url (u : option string) (p : product) : product :=
  Product (p_name p) (p_description p) (p_price p) (p_category p) (p_stock p) u.

Definition handleEditSave (st : store) (f : edit_form) : string * store :=
  match ef_variants f with
  | [] => ("Please ensure the product has at least one variant.", st)
  | _ =>
      let pid := ef_id f in
      match edit_loop pid (ef_variants f) (EditAcc (product_variants st) [] [] []) with
      | (Some msg, acc) => (msg, set_product_variants (λ _, ea_variants acc) st)
      | (None, acc) =>
          let mainImgUrl :=
            str_or (str_or "" (head (ea_toInsert acc) ≫= v_img_url))
                   (mjoin (head (ea_urls acc))) in
          let ps := alter (λ _, with_p_img_url (Some mainImgUrl) (ef_productData f))
                      pid (products st) in
          let kept := filter (λ kv, ¬ (v_product_id kv.2 = pid ∧ kv.1 ∉ ea_existing acc))
                        (ea_variants acc) in
          let vs := insert_variants (ea_toInsert acc) kept in
          let ps' := alter (with_p_stock (sum_variant_stock vs pid)) pid ps in
          ("Product updated successfully!",
           Store ps' vs (orders st) (order_items st) (payments st)
                 (user_addresses st) (cart_items st))
      end
  end.

Record add_form := AddForm {
  af_productData : product;
  af_variants : list form_variant
}.

(** The first loop of [handleAddProduct]: upload the picked files and collect
    the rows to insert ([product_id] is filled in by the caller); the first
    failed upload returns from the handler with its alert, which ends in
    [uploadErr.message || JSON.stringify(uploadErr)]. *)
Fixpoint upload_all (pid : id) (fvs : list form_variant) : string + list variant :=
  match fvs with
  | [] => inr []
  | fv :: rest =>
      let row url :=
        Variant pid (Some (fv_color fv)) (Some (fv_size fv)) (Some (fv_stock fv)) url in
      match fv_imgFile fv with
      | Some (UploadFails message stringified) =>
          inl ("Image upload failed for " ++ fv_color fv ++ " " ++ fv_size fv ++ ": "
               ++ str_or stringified message)
      | Some (UploadsTo url) =>
          match upload_all pid rest with
          | inl msg => inl msg
          | inr rows => inr (row (Some url) :: rows)
          end
      | None =>
          match upload_all pid rest with
          | inl msg => inl msg
          | inr rows => inr (row (fv_img_url fv) :: rows)
          end
      end
  end.

Definition handleAddProduct (st : store) (f : add_form) : string * store :=
  match af_variants f with
  | [] => ("Please add at least one product variant (Color/Size/Stock).", st)
  | _ =>
      let newProductId := new_id (products st) in
      match upload_all newProductId (af_variants f) with
      | inl msg => (msg, st)
      | inr uploadedVariants =>
          let totalStock :=
            fold_left (λ sum v, sum + default 0 (v_stock v)) uploadedVariants 0 in
          let mainImgUrl := str_or "" (head uploadedVariants ≫= v_img_url) in
          let row := with_p_stock totalStock
                       (with_p_img_url (Some mainImgUrl) (af_productData f)) in
          ("Product and variants added successfully!",
           set_product_variants (insert_variants uploadedVariants)
             (set_products (insert newProductId row) st))
      end
  end.

(** ** The operations as one step function

    The handlers that write to [products], [product_variants], [orders],
    [order_items] or [payments]. *)

Inductive op :=
  | OpPlaceOrder (user cartId : option id) (cartItems : list cart_item) (o : place_opts)
  | OpCancelOrder (orderId : option id) (confirmed : bool)
  | OpUpdateStatus (orderId : id) (newStatus : option string)
  | OpDeleteOrder (orderId : id)
  | OpAddProduct (f : add_form)
  | OpEditSave (f : edit_form)
  | OpDeleteProduct (pid : id) (confirmed : bool).

Definition run (st : store) (o : op) : store :=
  match o with
  | OpPlaceOrder user cartId cartItems opts => (placeOrder st user cartId cartItems opts).2
  | OpCancelOrder orderId confirmed => (cancelOrder st orderId confirmed).2
  | OpUpdateStatus orderId newStatus => (updateStatus st orderId newStatus).2
  | OpDeleteOrder orderId => (deleteOrder st orderId).2
  | OpAddProduct f => (handleAddProduct st f).2
  | OpEditSave f => (handleEditSave st f).2
  | OpDeleteProduct pid confirmed => handleDeleteProduct st pid confirmed
  end.

Definition run_all (st : store) (ops : list op) : store := fold_left run ops st.

(** ** Payment relay: [api/create-payment-intent.js] and [server.cjs] *)

Module Relay.

(** A JavaScript number, as far as the amount check looks at it. *)
Inductive jsnum :=
  | NaN
  | Num (q : Q)
  | Infinity (negative : bool).

#[warnings="-register-all"]
Inductive json :=
  | JNull
  | JBool (b : bool)
  | JNum (n : jsnum)
  | JStr (s : string)
  | JArr (l : list json)
  | JObj (fields : list (string * json)).

Record intent_request := IntentRequest {
  ir_amount : jsnum;
  ir_currency : json;
  ir_email : json;
  ir_fullName : json;
  ir_userId : json;
  ir_description : string
}.

(** The processor's reply, as far as the handlers read it; [metadata] is
    [None] when the reply has no such property. *)
Record intent := Intent {
  client_secret : string;
  intent_id : string;
  metadata : option json
}.

(** A thrown error: its [message], when it has one. *)
Abbreviation js_error := (option string).

(** The language built-ins and the processor client the handlers call.
    [JSON_parse] answers with the syntax error it throws or with the value;
    [string_to_number] and [object_to_number] are [Number] on a string and on
    an array or object; [js_to_string] is the conversion a template literal
    applies; [paymentIntents_create] is the processor's answer to a request. *)
Record runtime := Runtime {
  JSON_parse : string → js_error + json;
  string_to_number : string → jsnum;
  object_to_number : json → jsnum;
  js_to_string : json → string;
  paymentIntents_create : intent_request → js_error + intent
}.

Record env := Env {
  STRIPE_SECRET_KEY : option string;
  VITE_STRIPE_SECRET_KEY : option string
}.

Record request := Request {
  method : string;
  url : string;
  req_body : string
}.

Inductive body :=
  | NoBody
  | Text (s : string)
  | Json (j : json).

Record response := Response {
  status : Z;
  headers : list (string * string);
  res_body : body
}.

Definition defaultHeaders : list (string * string) :=
  [("Content-Type", "application/json");
   ("Access-Control-Allow-Origin", "*");
   ("Access-Control-Allow-Methods", "GET,POST,OPTIONS");
   ("Access-Control-Allow-Headers", "Content-Type")].

Fixpoint assoc (key : string) (fields : list (string * json)) : option json :=
  match fields with
  | [] => None
  | (k, v) :: rest => if String.eqb k key then Some v else assoc key rest
  end.

(** [payload.key]: reading a property of [null] throws; a value that is not
    an object has none of the properties the handlers read. *)
Definition get_prop (payload : json) (key : string) : js_error + option json :=
  match payload with
  | JNull => inl (Some ("Cannot read properties of null (reading '" ++ key ++ "')"))
  | JObj fields => inr (assoc key fields)
  | _ => inr None
  end.

Definition num_truthy (n : jsnum) : bool :=
  match n with
  | NaN => false
  | Num q => negb (Qeq_bool q 0)
  | Infinity _ => true
  end.

Definition truthy (v : json) : bool :=
  match v with
  | JNull => false
  | JBool b => b
  | JNum n => num_truthy n
  | JStr s => negb (String.eqb s "")
  | JArr _ | JObj _ => true
  end.

(** [v || d] on a property that may be undefined. *)
Definition or_else (v : option json) (d : json) : json :=
  match v with
  | Some x => if truthy x then x else d
  | None => d
  end.

Definition Number (rt : runtime) (v : json) : jsnum :=
  match v with
  | JNull => Num 0
  | JBool b => if b then Num 1 else Num 0
  | JNum n => n
  | JStr s => string_to_number rt s
  | JArr _ | JObj _ => object_to_number rt v
  end.

(** [amount <= 0] *)
Definition le_zero (n : jsnum) : bool :=
  match n with
  | NaN => false
  | Num q => Qle_bool q 0
  | Infinity negative => negative
  end.

(** [!amount || amount <= 0] *)
Definition invalid_amount (n : jsnum) : bool := negb (num_truthy n) || le_zero n.

Definition error_obj (msg : string) : json := JObj [("error", JStr msg)].

(** The [catch] block of the serverless handler: [err.message || 'Internal error']. *)
Definition api_catch (err : js_error) : response :=
  Response 500 defaultHeaders (Json (error_obj (str_or "Internal error" err))).

(** The [catch] block of the standalone server: [{ error: err.message }]. *)
Definition server_catch (err : js_error) : response :=
  Response 500 defaultHeaders
    (Json (JObj match err with Some m => [("error", JStr m)] | None => [] end)).

(** What a handler reads of the processor's reply between the call and the
    response.  The serverless handler reads nothing there.  The standalone
    server logs [paymentIntent.metadata.fullName]; reading a property of
    [undefined] or of [null] throws. *)
Definition api_after_create (pi : intent) : js_error + unit := inr ().

Definition server_after_create (pi : intent) : js_error + unit :=
  match metadata pi with
  | None => inl (Some "Cannot read properties of undefined (reading 'fullName')")
  | Some m =>
      match get_prop m "fullName" with
      | inl err => inl err
      | inr _ => inr ()
      end
  end.

(** The body of the [req.on('end', ...)] callback, which the two files share
    up to what they read of the reply and their [catch] block.  The second
    component lists the requests sent to the processor. *)
Definition on_end (rt : runtime) (catch : js_error → response)
    (after_create : intent → js_error + unit) (body : string)
    : response * list intent_request :=
  match JSON_parse rt (if String.eqb body "" then "{}" else body) with
  | inl err => (catch err, [])
  | inr payload =>
      match get_prop payload "amount" with
      | inl err => (catch err, [])
      | inr a =>
          let amount := Number rt (or_else a (JNum (Num 0))) in
          if invalid_amount amount
          then (Response 400 defaultHeaders (Json (error_obj "Invalid amount")), [])
          else
            let field k := match get_prop payload k with inr v => v | inl _ => None end in
            let fullName := field "fullName" in
            let ir :=
              IntentRequest amount
                (or_else (field "currency") (JStr "usd"))
                (or_else (field "email") (JStr ""))
                (or_else fullName (JStr ""))
                (or_else (field "userId") (JStr ""))
                (match fullName with
                 | Some v => if truthy v then "Payment for " ++ js_to_string rt v else "Payment"
                 | None => "Payment"
                 end) in
            match paymentIntents_create rt ir with
            | inl err => (catch err, [ir])
            | inr pi =>
                match after_create pi with
                | inl err => (catch err, [ir])
                | inr _ =>
                    (Response 200 defaultHeaders
                       (Json (JObj [("clientSecret", JStr (client_secret pi));
                                    ("id", JStr (intent_id pi))])),
                     [ir])
                end
            end
      end
  end.

(** [process.env.STRIPE_SECRET_KEY || process.env.VITE_STRIPE_SECRET_KEY || ''] *)
Definition stripeSecret (e : env) : string :=
  str_or (str_or "" (VITE_STRIPE_SECRET_KEY e)) (STRIPE_SECRET_KEY e).

(** [api/create-payment-intent.js] *)
Definition api_handler (rt : runtime) (e : env) (req : request)
    : response * list intent_request :=
  if String.eqb (method req) "OPTIONS" then (Response 204 defaultHeaders NoBody, [])
  else if negb (String.eqb (method req) "POST")
  then (Response 404 defaultHeaders (Json (error_obj "Not found")), [])
  else if String.eqb (stripeSecret e) ""
  then (Response 500 defaultHeaders
          (Json (error_obj "Stripe secret key not configured on server")), [])
  else on_end rt api_catch api_after_create (req_body req).

(** [server.cjs] *)
Definition server_handler (rt : runtime) (req : request)
    : response * list intent_request :=
  if String.eqb (method req) "OPTIONS" then (Response 204 defaultHeaders NoBody, [])
  else if String.eqb (method req) "POST" && String.eqb (url req) "/create-payment-intent"
  then on_end rt server_catch server_after_create (req_body req)
  else if String.eqb (method req) "GET" && String.eqb (url req) "/health"
  then (Response 200 [("Content-Type", "application/json")]
          (Json (JObj [("ok", JBool true)])), [])
  else (Response 404 [] (Text "Not found"), []).

(** The claim's reading of an unusable amount: the property is absent, or
    [Number] of it is zero, negative or minus infinity. *)
Definition nonpositive (n : jsnum) : Prop :=
  match n with
  | Num q => (q <= 0)%Q
  | Infinity negative => negative = true
  | NaN => False
  end.

Definition amount_missing_or_nonpositive (rt : runtime) (a : option json) : Prop :=
  match a with
  | None => True
  | Some v => nonpositive (Number rt v)
  end.

Definition invalid_amount_response : response * list intent_request :=
  (Response 400 defaultHeaders (Json (error_obj "Invalid amount")), []).

(** *** A runtime to evaluate the handlers with

    It stands in for the built-ins on the few bodies used below: the empty
    object, an object whose amount is zero or 1500, and text that is not
    JSON. *)

Definition dquote : string := String "034"%char EmptyString.

Definition amount_zero_body : string := "{" ++ dquote ++ "amount" ++ dquote ++ ":0}".

Definition amount_1500_body : string := "{" ++ dquote ++ "amount" ++ dquote ++ ":1500}".

Definition sample_parse (s : string) : js_error + json :=
  if String.eqb s "{}" then inr (JObj [])
  else if String.eqb s amount_zero_body then inr (JObj [("amount", JNum (Num 0))])
  else if String.eqb s amount_1500_body then inr (JObj [("amount", JNum (Num 1500))])
  else inl (Some "Unexpected token in JSON").

Definition sample_runtime : runtime :=
  Runtime sample_parse (λ _, NaN) (λ _, NaN) (λ _, "[object Object]")
          (λ ir, inr (Intent "pi_1_secret" "pi_1"
                        (Some (JObj [("email", ir_email ir); ("fullName", ir_fullName ir);
                                     ("userId", ir_userId ir)])))).

Definition configured : env := Env (Some "sk_test_1") None.
Definition unconfigured : env := Env None None.

(** The errors the built-ins and the processor client throw carry a
    non-empty message, as JavaScript's and the client library's own errors
    do. *)
Definition errors_have_messages (rt : runtime) : Prop :=
  (∀ s err, JSON_parse rt s = inl err → ∃ m, err = Some m ∧ m ≠ "")
  ∧ (∀ ir err, paymentIntents_create rt ir = inl err → ∃ m, err = Some m ∧ m ≠ "").

(** The processor's replies carry a [metadata] object, as the replies of the
    processor's own client library do. *)
Definition replies_have_metadata (rt : runtime) : Prop :=
  ∀ ir pi, paymentIntents_create rt ir = inr pi → ∃ m, metadata pi = Some m ∧ m ≠ JNull.




End Relay.

(** ** Auxiliary definitions used by the statements *)

Definition set_stock (s : option Z) (v : variant) : variant :=
  Variant (v_product_id v) (v_color v) (v_size v) s (v_img_url v).

(** The two stock loops ([placeOrder]'s deduction, the restock block) as one
    loop over items with a variant key and a stock update. *)
Section stock_loop.
Context {A : Type} (key : A → option id) (upd : option Z → A → Z).

Definition stock_step (acc : gmap id variant * list id) (a : A)
    : gmap id variant * list id :=
  match key a with
  | None => acc
  | Some k =>
      match acc.1 !! k with
      | None => acc
      | Some v =>
          (alter (with_stock (upd (v_stock v) a)) k acc.1, set_add (v_product_id v) acc.2)
      end
  end.

(** The stock a variant ends with: the updates of the items that name it,
    applied in order. *)
Definition replay (k : id) (l : list A) (s : option Z) : option Z :=
  fold_left (λ s a, Some (upd s a)) (filter (λ a, key a = Some k) l) s.
End stock_loop.

Definition floor_sub (s : option Z) (ci : cart_item) : Z :=
  Z.max 0 (num_or 0 s - num_or 0 (ci_quantity ci)).

Definition add_back (s : option Z) (it : order_item) : Z :=
  num_or 0 s + num_or 0 (oi_quantity it).

(** The product that owns the variant a line refers to, if that variant exists. *)
Definition owner_of (vs : gmap id variant) (vid : option id) : option id :=
  v_product_id <$> fetch_variant vs vid.

Definition affected {A} (key : A → option id) (vs : gmap id variant)
    (l : list A) (pid : id) : Prop :=
  ∃ a, a ∈ l ∧ owner_of vs (key a) = Some pid.

(** The sum of the stock of the variants of a product, in the spec's words:
    the rows of the variant table that belong to the product, a null stock
    counting as zero. *)
Definition variants_of (vs : gmap id variant) (pid : id) : list (id * variant) :=
  filter (λ kv, v_product_id kv.2 = pid) (map_to_list vs).

Definition total_variant_stock (vs : gmap id variant) (pid : id) : Z :=
  foldr (λ kv s, default 0 (v_stock kv.2) + s) 0 (variants_of vs pid).

(** A product row with its stock field replaced. *)
Definition product_with_stock (total : Z) (p : product) : product :=
  {| p_name := p_name p; p_description := p_description p; p_price := p_price p;
     p_category := p_category p; p_stock := Some total; p_img_url := p_img_url p |}.

(** An order row with its status replaced. *)
Definition order_with_status (s : option string) (o : order) : order :=
  {| o_user_id := o_user_id o; o_total := o_total o; o_status := s;
     o_payment_status := o_payment_status o; o_payment_method := o_payment_method o;
     o_shipping := o_shipping o |}.

(** The quantities of the items of order [oid] that name variant [k], and the
    stock of that variant once they are added back. *)
Definition returned_quantities (oid k : id) (items : list order_item) : list Z :=
  (λ it, default 0 (oi_quantity it))
    <$> filter (λ it, oi_order_id it = oid ∧ oi_product_variant_id it = Some k) items.

Definition stock_after_return (oid k : id) (items : list order_item) (s : option Z)
    : option Z :=
  match returned_quantities oid k items with
  | [] => s
  | qs => Some (default 0 s + foldr Z.add 0 qs)
  end.

(** Product [pid] owns a variant that an item of order [oid] names. *)
Definition owns_returned_variant (st : store) (oid pid : id) : Prop :=
  ∃ it k v, it ∈ order_items st ∧ oi_order_id it = oid
    ∧ oi_product_variant_id it = Some k
    ∧ product_variants st !! k = Some v ∧ v_product_id v = pid.

(** Product [pid] owns a variant that a line of the cart names. *)
Definition owns_purchased_variant (st : store) (cart : list cart_item) (pid : id) : Prop :=
  ∃ ci k v, ci ∈ cart ∧ ci_product_variant_id ci = Some k
    ∧ product_variants st !! k = Some v ∧ v_product_id v = pid.

(** The name a shortfall message shows for a line: the name of the product
    joined to it, [an item] when there is none. *)
Definition shown_name (ci : cart_item) : string :=
  match ci_products ci with
  | Some p =>
      match p_name p with
      | Some n => if decide (n = "") then "an item" else n
      | None => "an item"
      end
  | None => "an item"
  end.

(** A line passes the re-check: its variant can be read and holds at least
    the quantity asked. *)
Definition passes_recheck (st : store) (ci : cart_item) : Prop :=
  ∃ v, fetch_variant (product_variants st) (ci_product_variant_id ci) = Some v
       ∧ num_or 0 (ci_quantity ci) ≤ num_or 0 (v_stock v).

(** The order total in the spec's words: the sum over the line items of
    price times quantity, for a given reading of a line's price and of the
    units it is charged for.  The sum is accumulated in cart order, as
    floating-point addition is not associative. *)
Definition quantity_of (ci : cart_item) : Z := default 0 (ci_quantity ci).

(** The units a line is charged for: its quantity, one unit when the quantity
    is null or zero. *)
Definition units_charged (ci : cart_item) : Z :=
  match ci_quantity ci with
  | Some q => if decide (q = 0) then 1 else q
  | None => 1
  end.

Definition sum_price_times_quantity (price : cart_item → float) (units : cart_item → Z)
    (cart : list cart_item) : float :=
  fold_left PrimFloat.add (map (λ ci, (price ci * Z_to_float (units ci))%float) cart) 0%float.

(** The price of a product row as it is charged: zero when the row or its
    price is missing, or when the price is zero or not a number. *)
Definition price_charged (p : option product) : float :=
  match p with
  | Some row =>
      match p_price row with
      | Some x => if (PrimFloat.is_nan x || PrimFloat.eqb x 0)%bool then 0%float else x
      | None => 0%float
      end
  | None => 0%float
  end.

(** The price on the product row joined to the line item. *)
Definition joined_price (ci : cart_item) : float := price_charged (ci_products ci).

(** The product row the store holds for the line item, and its price. *)
Definition product_of (st : store) (ci : cart_item) : option product :=
  ci_product_id ci ≫= (λ k, products st !! k).

Definition current_price (st : store) (ci : cart_item) : float :=
  price_charged (product_of st ci).

(** The client's cart view carries, for every line, the product row the
    store holds. *)
Definition cart_in_sync (st : store) (cart : list cart_item) : Prop :=
  ∀ ci, ci ∈ cart → ci_products ci = product_of st ci.

Definition reports_succeeded (pd : option payment_details) : Prop :=
  ∃ d, pd = Some d ∧ pd_status d = Some "succeeded".

(** ** A small store used to evaluate the handlers

    One product with one variant holding three units, and one order of two
    units of it, in a given status. *)

Definition sample_product : product :=
  Product (Some "Shirt") None (Some 10%float) (Some "casual") (Some 3) None.

Definition sample_variant : variant :=
  Variant 1 (Some "red") (Some "M") (Some 3) None.

Definition sample_order (status : string) : order :=
  Order 3 20%float (Some status) "pending" "cod" null_shipping.

Definition sample_item : order_item :=
  OrderItem 4 (Some 1%positive) (Some 7%positive) (Some 2) 10%float "Shirt" "red" "M" "".

Definition sample_store (status : string) : store :=
  Store {[1%positive := sample_product]} {[7%positive := sample_variant]}
        {[4%positive := sample_order status]} [sample_item] [] ∅ ∅.

Definition sample_line (quantity : Z) : cart_item :=
  CartItem (Some 1%positive) (Some 7%positive) (Some quantity)
           (Some sample_product) (Some sample_variant).

(** A cart line loaded when the shirt cost 8, kept by the client while the
    store's price went to 10; and a line for a variant the store does not
    hold. *)
Definition stale_line : cart_item :=
  CartItem (Some 1%positive) (Some 7%positive) (Some 2)
           (Some (Product (Some "Shirt") None (Some 8%float) (Some "casual") (Some 3) None))
           (Some sample_variant).

Definition unreadable_line : cart_item :=
  CartItem (Some 1%positive) (Some 8%positive) (Some 1) (Some sample_product) None.

(** A store with two products: a shirt with two variants (three and four
    units) and a cap with one (six units); and one order of two units of the
    shirt's first variant, in a given status. *)
Definition shop (status : string) : store :=
  Store {[1%positive := Product (Some "Shirt") None (Some 10%float) (Some "casual") (Some 7) None;
          2%positive := Product (Some "Cap") None (Some 5%float) (Some "sports") (Some 6) None]}
        {[7%positive := sample_variant;
          8%positive := Variant 1 (Some "blue") (Some "L") (Some 4) None;
          9%positive := Variant 2 (Some "black") (Some "S") (Some 6) None]}
        {[4%positive := sample_order status]} [sample_item] [] ∅ ∅.

Definition sample_form : edit_form :=
  EditForm 1 (Product (Some "Blouse") None (Some 99%float) (Some "fashion") (Some 3) None)
    [FormVariant (Some 7%positive) "green" "L" 9 None (Some (UploadsTo "https://cdn/green.png"))].

(** ** Further helpers of the two pages *)

(** *** [OrdersModal] (customerhomepage.jsx) and the admin order card *)

(** [canCancel]: whether the order row shows a Cancel button. *)
Definition canCancel (s : option string) : bool :=
  let st := status_lc s in
  negb (String.eqb st "shipping") && negb (String.eqb st "delivered")
  && negb (String.eqb st "cancelled") && negb (String.eqb st "canceled").

(** [statusStepIndex]: the step the status stepper highlights. *)
Definition statusStepIndex (s : option string) : Z :=
  match s with
  | None => 0
  | Some str =>
      if String.eqb str "" then 0
      else
        let st := toLowerCase str in
        if String.eqb st "processing" || String.eqb st "pending" then 0
        else if String.eqb st "shipping" || String.eqb st "shipped" then 1
        else if String.eqb st "delivered" || String.eqb st "successful"
                || String.eqb st "success" || String.eqb st "completed" then 2
        else if String.eqb st "cancelled" || String.eqb st "canceled" then -1
        else 0
  end.

(** The predicate the modal filters the orders with under the heading [stKey]. *)
Definition in_group (stKey : string) (status : option string) : bool :=
  let s := status_lc status in
  if String.eqb stKey "processing" then String.eqb s "processing" || String.eqb s "pending"
  else if String.eqb stKey "shipping" then String.eqb s "shipping" || String.eqb s "shipped"
  else if String.eqb stKey "cancelled" then String.eqb s "cancelled" || String.eqb s "canceled"
  else if String.eqb stKey "delivered"
  then String.eqb s "delivered" || String.eqb s "successful"
       || String.eqb s "success" || String.eqb s "completed"
  else false.

Definition orderStatuses : list string := ["processing"; "shipping"; "cancelled"; "delivered"].

(** The count shown beside a heading: [orders.filter(..).length]. *)
Definition group_count (stKey : string) (os : list order) : nat :=
  length (List.filter (λ o, in_group stKey (o_status o)) os).

(** [isLocked] (admin.jsx): whether the admin's status buttons are disabled. *)
Definition isLocked (status : option string) : bool :=
  let st := status_lc status in
  String.eqb st "delivered" || String.eqb st "cancelled".

(** One of the ten spellings the helpers above know. *)
Definition known_status (status : option string) : bool :=
  let s := status_lc status in
  String.eqb s "processing" || String.eqb s "pending"
  || String.eqb s "shipping" || String.eqb s "shipped"
  || String.eqb s "cancelled" || String.eqb s "canceled"
  || String.eqb s "delivered" || String.eqb s "successful"
  || String.eqb s "success" || String.eqb s "completed".

(** *** Sold counts *)

(** [loadMeta] of the two product modals:
    [from("order_items").select("quantity").eq("product_id", product.id)] and
    [reduce((s, it) => s + Number(it.quantity || 0), 0)]. *)
Definition sold_count (pid : id) (items : list order_item) : Z :=
  fold_left (λ s it, s + num_or 0 (oi_quantity it))
            (filter (λ it, oi_product_id it = Some pid) items) 0.

(** The rows [from("order_items").select("product_id, quantity").in("product_id", ids)]
    answers with, as pairs. *)
Definition sold_rows (ids : list id) (items : list order_item) : list (id * option Z) :=
  omap (λ it, match oi_product_id it with
              | Some p => if bool_decide (p ∈ ids) then Some (p, oi_quantity it) else None
              | None => None
              end) items.

(** The sold-count block of [loadProducts]: the map handed to [setSoldMap],
    or the previous state when no product was loaded. *)
Definition load_sold_map (ids : list id) (items : list order_item) (prev : gmap id Z)
    : gmap id Z :=
  match ids with
  | [] => prev
  | _ =>
      fold_left (λ (map : gmap id Z) (r : id * option Z),
                   <[r.1 := num_or 0 (map !! r.1) + num_or 0 r.2]> map)
                (sold_rows ids items) ∅
  end.

(** [soldMap[p.id] || 0] *)
Definition sold_shown (map : gmap id Z) (pid : id) : Z := num_or 0 (map !! pid).

(** *** The cart view *)

(** A [cart_items] row with the rows its two foreign keys embed:
    [select("*, products(*), product_variants(*)")]. *)
Definition join_cart_row (st : store) (r : cart_row) : cart_item :=
  CartItem (cr_product_id r) (cr_product_variant_id r) (cr_quantity r)
    (cr_product_id r ≫= (λ k, products st !! k))
    (cr_product_variant_id r ≫= (λ k, product_variants st !! k)).

(** What [loadCartItemsForUser] hands to [setCartItems], from the rows of the
    user's cart in the order the query returns them. *)
Definition cart_view (st : store) (rows : list cart_row) : list cart_item :=
  map (join_cart_row st) rows.

(** *** Cart lines: [updateCartQty], [removeCartItem] (customerhomepage.jsx) *)

Definition set_cart_items (f : gmap id cart_row → gmap id cart_row) (st : store) : store :=
  Store (products st) (product_variants st) (orders st) (order_items st)
        (payments st) (user_addresses st) (f (cart_items st)).

Definition with_quantity (q : Z) (r : cart_row) : cart_row :=
  CartRow (cr_cart_id r) (cr_product_id r) (cr_product_variant_id r) (Some q).

Definition updateCartQty (st : store) (itemId : id) (qty : Z) : store :=
  if qty <=? 0
  then set_cart_items (delete itemId) st
  else set_cart_items (alter (with_quantity qty) itemId) st.

Definition removeCartItem (st : store) (itemId : id) : store :=
  set_cart_items (delete itemId) st.

(** ** Invariants of the store *)

(** Every product's stock field is the sum of the stock of its variants. *)
Definition stock_consistent (st : store) : Prop :=
  ∀ pid p, products st !! pid = Some p →
    p_stock p = Some (sum_variant_stock (product_variants st) pid).

Definition stock_nonneg (vs : gmap id variant) : Prop :=
  ∀ k v, vs !! k = Some v → 0 ≤ num_or 0 (v_stock v).

(** Every variant belongs to a product of the store. *)
Definition variants_owned (st : store) : Prop :=
  ∀ k v, product_variants st !! k = Some v → is_Some (products st !! v_product_id v).

(** The handlers of the order lifecycle. *)
Definition lifecycle_op (o : op) : bool :=
  match o with
  | OpPlaceOrder _ _ _ _ | OpCancelOrder _ _ | OpUpdateStatus _ _ | OpDeleteOrder _ => true
  | OpAddProduct _ | OpEditSave _ | OpDeleteProduct _ _ => false
  end.

(** The variant keys the lines of a cart name. *)
Definition line_keys (cart : list cart_item) : list id := omap ci_product_variant_id cart.

(** The units of product [pid] a cart asks for. *)
Definition units_of (pid : id) (cart : list cart_item) : Z :=
  fold_left (λ s ci, s + num_or 0 (ci_quantity ci))
            (filter (λ ci, ci_product_id ci = Some pid) cart) 0.

(** What a variant adds to the stock sum of product [pid]. *)
Definition contribution (pid : id) (v : variant) : Z :=
  if bool_decide (v_product_id v = pid) then num_or 0 (v_stock v) else 0.

(** A cart row for the sample variant, and the sample store holding it. *)
Definition sample_cart_row : cart_row :=
  CartRow (Some 9%positive) (Some 1%positive) (Some 7%positive) (Some 2).

Definition sample_store_with_cart : store :=
  Store {[1%positive := sample_product]} {[7%positive := sample_variant]}
        ∅ [] [] ∅ {[5%positive := sample_cart_row]}.

Definition sample_add_form : add_form :=
  AddForm (Product (Some "Cap") None (Some 5%float) (Some "sports") None None)
    [FormVariant None "blue" "S" 4 None None;
     FormVariant None "black" "S" 6 None (Some (UploadsTo "https://cdn/black.png"))].

(** * Properties *)

Lemma elem_of_set_add x y s : x ∈ set_add y s ↔ x = y ∨ x ∈ s.
Proof.
  unfold set_add. case_bool_decide as Hy.
  - split; [by right | intros [-> | ?]; done].
  - rewrite elem_of_app, list_elem_of_singleton. tauto.
Qed.

Lemma set_stock_same v : set_stock (v_stock v) v = v.
Proof. by destruct v. Qed.

Lemma set_stock_with_stock s n v : set_stock s (with_stock n v) = set_stock s v.
Proof. reflexivity. Qed.

Lemma deduct_step_stock_step : deduct_step = stock_step ci_product_variant_id floor_sub.
Proof. reflexivity. Qed.

Lemma restore_step_stock_step : restore_step = stock_step oi_product_variant_id add_back.
Proof. reflexivity. Qed.

Lemma owner_of_Some vs k : owner_of vs (Some k) = v_product_id <$> vs !! k.
Proof. reflexivity. Qed.

Lemma owner_of_None vs : owner_of vs None = None.
Proof. reflexivity. Qed.

Section stock_loop_facts.
Context {A : Type} (key : A → option id) (upd : option Z → A → Z).

Lemma stock_step_none acc a : key a = None → stock_step key upd acc a = acc.
Proof. intros H. unfold stock_step. by rewrite H. Qed.

Lemma stock_step_miss acc a k :
  key a = Some k → acc.1 !! k = None → stock_step key upd acc a = acc.
Proof. intros H1 H2. unfold stock_step. by rewrite H1, H2. Qed.

Lemma stock_step_hit acc a k v :
  key a = Some k → acc.1 !! k = Some v →
  stock_step key upd acc a
  = (alter (with_stock (upd (v_stock v) a)) k acc.1, set_add (v_product_id v) acc.2).
Proof. intros H1 H2. unfold stock_step. by rewrite H1, H2. Qed.

Lemma stock_loop_lookup (l : list A) (vs : gmap id variant) (pids : list id) (k : id) :
  (fold_left (stock_step key upd) l (vs, pids)).1 !! k
  = (λ v, set_stock (replay key upd k l (v_stock v)) v) <$> vs !! k.
Proof.
  revert vs pids. induction l as [|a l IH]; intros vs pids; simpl.
  - unfold replay; simpl. destruct (vs !! k) as [v|]; simpl; [|done].
    by rewrite set_stock_same.
  - unfold replay.
    destruct (key a) as [k'|] eqn:Hk.
    + destruct (vs !! k') as [v'|] eqn:Hv.
      * rewrite (stock_step_hit _ _ k' v') by done. simpl.
        rewrite IH. destruct (decide (k' = k)) as [->|Hne].
        -- rewrite lookup_alter_eq, Hv; simpl. f_equal.
           rewrite filter_cons_True by done. simpl.
           by rewrite set_stock_with_stock.
        -- rewrite lookup_alter_ne by done.
           rewrite filter_cons_False; [done|]. congruence.
      * rewrite (stock_step_miss _ _ k') by done.
        rewrite IH. destruct (decide (k' = k)) as [->|Hne].
        -- by rewrite Hv.
        -- rewrite filter_cons_False; [done|]. congruence.
    + rewrite stock_step_none by done.
      rewrite IH. rewrite filter_cons_False; [done|]. congruence.
Qed.

Lemma owner_of_alter_stock (vs : gmap id variant) n k vid :
  owner_of (alter (with_stock n) k vs) vid = owner_of vs vid.
Proof.
  unfold owner_of. destruct vid as [j|]; simpl; [|done].
  destruct (decide (k = j)) as [->|Hne].
  - rewrite lookup_alter_eq. by destruct (vs !! j).
  - by rewrite lookup_alter_ne.
Qed.

Lemma affected_cons (vs vs' : gmap id variant) a l pid :
  (∀ vid, owner_of vs' vid = owner_of vs vid) →
  affected key vs (a :: l) pid
  ↔ owner_of vs (key a) = Some pid ∨ affected key vs' l pid.
Proof.
  intros Hsame. unfold affected. split.
  - intros (b & Hb & Ho). apply elem_of_cons in Hb as [->|Hb]; [by left|].
    right. exists b. by rewrite Hsame.
  - intros [Ho|(b & Hb & Ho)].
    + exists a. split; [left|done].
    + exists b. split; [by right|]. by rewrite <- Hsame.
Qed.

Lemma stock_loop_pids (l : list A) (vs : gmap id variant) (pids : list id) (pid : id) :
  pid ∈ (fold_left (stock_step key upd) l (vs, pids)).2
  ↔ pid ∈ pids ∨ affected key vs l pid.
Proof.
  revert vs pids. induction l as [|a l IH]; intros vs pids; simpl.
  - split; [by left|]. intros [?|(a & Ha & _)]; [done|]. by apply elem_of_nil in Ha.
  - destruct (key a) as [k'|] eqn:Hk.
    + destruct (vs !! k') as [v'|] eqn:Hv.
      * rewrite (stock_step_hit _ _ k' v') by done. simpl.
        rewrite IH, elem_of_set_add.
        rewrite (affected_cons vs (alter (with_stock (upd (v_stock v') a)) k' vs))
          by (intros; apply owner_of_alter_stock).
        rewrite Hk, owner_of_Some, Hv; simpl.
        split; [intros [[->|?]|?]|intros [?|[[= <-]|?]]]; tauto.
      * rewrite (stock_step_miss _ _ k') by done.
        rewrite IH, (affected_cons vs vs) by done.
        rewrite Hk, owner_of_Some, Hv; simpl.
        split; [tauto|]. intros [?|[[=]|?]]; tauto.
    + rewrite stock_step_none by done.
      rewrite IH, (affected_cons vs vs) by done.
      rewrite Hk, owner_of_None. split; [tauto|]. intros [?|[[=]|?]]; tauto.
Qed.
End stock_loop_facts.

Lemma with_p_stock_idemp n p : with_p_stock n (with_p_stock n p) = with_p_stock n p.
Proof. reflexivity. Qed.

Lemma recalc_products_lookup vs pids (ps : gmap id product) pid :
  recalc_products vs pids ps !! pid
  = if bool_decide (pid ∈ pids)
    then with_p_stock (sum_variant_stock vs pid) <$> ps !! pid
    else ps !! pid.
Proof.
  unfold recalc_products. revert ps. induction pids as [|q pids IH]; intros ps.
  - rewrite bool_decide_eq_false_2 by apply not_elem_of_nil. done.
  - cbn [fold_left]. rewrite IH. destruct (decide (q = pid)) as [->|Hne].
    + rewrite lookup_alter_eq. rewrite (bool_decide_eq_true_2 (pid ∈ pid :: pids)) by left.
      case_bool_decide; [|done].
      destruct (ps !! pid); simpl; [|done]. by rewrite with_p_stock_idemp.
    + rewrite lookup_alter_ne by done.
      destruct (decide (pid ∈ pids)) as [Hin|Hin].
      * rewrite !bool_decide_eq_true_2; [done| by right | done].
      * rewrite !bool_decide_eq_false_2; [done| |done].
        rewrite elem_of_cons. intros [?|?]; [by subst|done].
Qed.

(** *** The stock re-check *)

Lemma check_stock_ok vs cart :
  check_stock vs cart = CheckOk
  ↔ ∀ ci, ci ∈ cart →
      ∃ v, fetch_variant vs (ci_product_variant_id ci) = Some v
           ∧ num_or 0 (ci_quantity ci) ≤ num_or 0 (v_stock v).
Proof.
  induction cart as [|c cart IH]; simpl.
  - split; [|done]. intros _ ci Hci. by inversion Hci.
  - destruct (fetch_variant vs (ci_product_variant_id c)) as [v|] eqn:Hf.
    + destruct (Z.ltb_spec (num_or 0 (v_stock v)) (num_or 0 (ci_quantity c))) as [Hlt|Hge].
      * split; [done|]. intros H. destruct (H c) as (v' & Hv' & Hle); [left|].
        rewrite Hf in Hv'. injection Hv' as <-. lia.
      * rewrite IH. split.
        -- intros H ci [->|Hci]%elem_of_cons; [by exists v | by apply H].
        -- intros H ci Hci. apply H. by right.
    + split; [done|]. intros H. destruct (H c) as (v' & Hv' & _); [left|].
      by rewrite Hf in Hv'.
Qed.

Lemma check_stock_short vs cart ci v :
  check_stock vs cart = CheckShort ci v →
  ci ∈ cart ∧ fetch_variant vs (ci_product_variant_id ci) = Some v
  ∧ num_or 0 (v_stock v) < num_or 0 (ci_quantity ci).
Proof.
  induction cart as [|c cart IH]; simpl; [done|].
  destruct (fetch_variant vs (ci_product_variant_id c)) as [w|] eqn:Hf; [|done].
  destruct (Z.ltb_spec (num_or 0 (v_stock w)) (num_or 0 (ci_quantity c))) as [Hlt|Hge].
  - intros [= <- <-]. split; [left|done].
  - intros H. destruct (IH H) as (? & ? & ?). split; [by right|done].
Qed.

Lemma check_stock_fetch_failed vs cart :
  check_stock vs cart = CheckFetchFailed →
  ∃ ci, ci ∈ cart ∧ fetch_variant vs (ci_product_variant_id ci) = None.
Proof.
  induction cart as [|c cart IH]; simpl; [done|].
  destruct (fetch_variant vs (ci_product_variant_id c)) as [w|] eqn:Hf.
  - destruct (num_or 0 (v_stock w) <? num_or 0 (ci_quantity c)); [done|].
    intros H. destruct (IH H) as (ci & ? & ?). exists ci. split; [by right|done].
  - intros _. exists c. split; [left|done].
Qed.

(** What [placeOrder] computes once the guards and the re-check are passed. *)
Lemma placeOrder_ok st uid cartId cart o :
  cart ≠ [] →
  check_stock (product_variants st) cart = CheckOk →
  placeOrder st (Some uid) cartId cart o
  = (placed_msg,
     let vs := (deduct_all (product_variants st) cart).1 in
     let pids := (deduct_all (product_variants st) cart).2 in
     let oid := new_id (orders st) in
     let ps_status := payment_status_of (opt_paymentDetails o) in
     Store (recalc_products vs pids (products st)) vs
       (<[oid := Order uid (order_total cart) (Some "processing") ps_status
                   (opt_payment_method o) (shipping_snapshot (user_addresses st) o)]>
          (orders st))
       (order_items st ++ map (snapshot_item oid) cart)
       (payments st ++ [Payment oid (order_total cart) (opt_payment_method o) ps_status
                          (transaction_id_of (opt_paymentDetails o))])
       (user_addresses st)
       (clear_cart cartId (cart_items st))).
Proof.
  intros Hne Hck. unfold placeOrder. destruct cart as [|c cart]; [done|].
  rewrite Hck. by destruct (deduct_all (product_variants st) (c :: cart)).
Qed.

(** *** The spec's sums and the code's *)

Lemma num_or_0_default x : num_or 0 x = default 0 x.
Proof. destruct x as [n|]; [|done]. cbn. by destruct (Z.eqb_spec n 0). Qed.

(** The sum the handlers compute from the rows the query returns is the sum
    over the product's variants. *)
Lemma sum_variant_stock_total vs pid :
  sum_variant_stock vs pid = total_variant_stock vs pid.
Proof.
  unfold sum_variant_stock, total_variant_stock, variants_of. rewrite map_fold_foldr.
  induction (map_to_list vs) as [|[k v] l IH]; [done|]. cbn [foldr uncurry].
  rewrite IH. destruct (decide (v_product_id v = pid)) as [Hp|Hp].
  - rewrite filter_cons_True by done. rewrite bool_decide_eq_true_2 by done.
    cbn [foldr snd]. rewrite num_or_0_default. lia.
  - rewrite filter_cons_False by done. by rewrite bool_decide_eq_false_2.
Qed.

Lemma affected_purchased st cart pid :
  affected ci_product_variant_id (product_variants st) cart pid
  ↔ owns_purchased_variant st cart pid.
Proof.
  unfold affected, owns_purchased_variant, owner_of, fetch_variant. split.
  - intros (ci & Hci & Ho). destruct (ci_product_variant_id ci) as [k|] eqn:Hk; [|done].
    destruct (product_variants st !! k) as [v|] eqn:Hv; [|done].
    injection Ho as Ho. by exists ci, k, v.
  - intros (ci & k & v & Hci & Hk & Hv & Hp). exists ci. split; [done|].
    rewrite Hk, Hv. cbn. by rewrite Hp.
Qed.

(** C2. A checkout that passes the stock re-check leaves every variant with
    the stock obtained by subtracting, floored at zero, the quantity of each
    line item that names it (a variant bought by a single line item ends
    with [max 0 (stock - quantity)], which the re-check makes equal to
    [stock - quantity]); and every product that owns a purchased variant ends
    with a stock field equal to the sum of the stock of all of its variants in
    the table the checkout leaves, its other fields and the other products
    being untouched. *)
Theorem placeOrder_deducts_and_recomputes st uid cartId cart o :
  cart ≠ [] →
  check_stock (product_variants st) cart = CheckOk →
  let st' := (placeOrder st (Some uid) cartId cart o).2 in
  (∀ k, product_variants st' !! k
        = (λ v, set_stock (replay ci_product_variant_id floor_sub k cart (v_stock v)) v)
            <$> product_variants st !! k)
  ∧ (∀ ci k v, ci ∈ cart → ci_product_variant_id ci = Some k →
       product_variants st !! k = Some v →
       filter (λ c, ci_product_variant_id c = Some k) cart = [ci] →
       product_variants st' !! k
       = Some (set_stock (Some (Z.max 0 (num_or 0 (v_stock v) - num_or 0 (ci_quantity ci)))) v)
       ∧ Z.max 0 (num_or 0 (v_stock v) - num_or 0 (ci_quantity ci))
         = num_or 0 (v_stock v) - num_or 0 (ci_quantity ci))
  ∧ (∀ pid, owns_purchased_variant st cart pid →
       products st' !! pid
       = product_with_stock (total_variant_stock (product_variants st') pid)
           <$> products st !! pid)
  ∧ (∀ pid, ¬ owns_purchased_variant st cart pid →
       products st' !! pid = products st !! pid).
Proof.
  intros Hne Hck st'. subst st'. rewrite placeOrder_ok by done. cbn [snd].
  cbn [product_variants products]. unfold deduct_all. rewrite deduct_step_stock_step.
  assert (Hlook := stock_loop_lookup ci_product_variant_id floor_sub cart
                     (product_variants st) []).
  assert (Hpids := stock_loop_pids ci_product_variant_id floor_sub cart
                     (product_variants st) []).
  split; [exact Hlook|]. split; [|split].
  - intros ci k v Hci Hk Hv Hone. rewrite Hlook, Hv. cbn [fmap option_fmap option_map].
    unfold replay. rewrite Hone. cbn [fold_left]. unfold floor_sub. split; [done|].
    apply check_stock_ok with (ci := ci) in Hck as (v' & Hv' & Hle); [|done].
    rewrite Hk in Hv'. cbn in Hv'. rewrite Hv in Hv'. injection Hv' as <-. lia.
  - intros pid Haff%affected_purchased. rewrite recalc_products_lookup.
    rewrite bool_decide_eq_true_2 by (apply Hpids; by right).
    by rewrite sum_variant_stock_total.
  - intros pid Hnaff. rewrite recalc_products_lookup.
    rewrite bool_decide_eq_false_2; [done|]. rewrite Hpids, affected_purchased.
    intros [Hin|?]; [by inversion Hin | done].
Qed.

Lemma check_stock_skip st pre rest :
  (∀ c, c ∈ pre → passes_recheck st c) →
  check_stock (product_variants st) (pre ++ rest) = check_stock (product_variants st) rest.
Proof.
  induction pre as [|c pre IH]; intros Hall; [done|]. cbn [app check_stock].
  destruct (Hall c) as (w & Hw & Hle); [left|]. rewrite Hw.
  destruct (Z.ltb_spec (num_or 0 (v_stock w)) (num_or 0 (ci_quantity c))) as [?|_]; [lia|].
  apply IH. intros; apply Hall; by right.
Qed.

Lemma item_name_shown ci : item_name ci = shown_name ci.
Proof.
  unfold item_name, shown_name. destruct (ci_products ci) as [p|]; [|done]. cbn.
  destruct (p_name p) as [n|]; [|done]. cbn.
  destruct (String.eqb_spec n ""), (decide (n = "")); done.
Qed.

(** C3 (as amended).  [placeOrder] called with an empty cart, or with a line
    item whose quantity exceeds the stock of its variant as re-read from the
    store, returns the store it was given: no stock is changed and no order,
    order item or payment row is created.  With an empty cart the alert is
    [Cart empty].  Otherwise the alert is decided by the first line, in cart
    order, that does not pass the re-check: when that line's variant cannot
    be read the alert is [Failed to validate stock for an item. Try again.];
    when it is deficient the alert is the shortfall message with the name of
    the product joined to that line ([an item] when there is none) and the
    available and requested quantities. *)
Theorem placeOrder_rejects_before_mutation st user cartId cart o :
  (cart = []
   ∨ ∃ ci v, ci ∈ cart
       ∧ fetch_variant (product_variants st) (ci_product_variant_id ci) = Some v
       ∧ num_or 0 (v_stock v) < num_or 0 (ci_quantity ci)) →
  (placeOrder st user cartId cart o).2 = st
  ∧ (placeOrder st user cartId cart o).1 ≠ placed_msg
  ∧ (∀ uid, user = Some uid → cart = [] →
       (placeOrder st user cartId cart o).1 = "Cart empty")
  ∧ (∀ uid pre ci post, user = Some uid → cart = (pre ++ ci :: post)%list →
       (∀ c, c ∈ pre → passes_recheck st c) →
       (fetch_variant (product_variants st) (ci_product_variant_id ci) = None →
          (placeOrder st user cartId cart o).1
          = "Failed to validate stock for an item. Try again.")
       ∧ (∀ v, fetch_variant (product_variants st) (ci_product_variant_id ci) = Some v →
            num_or 0 (v_stock v) < num_or 0 (ci_quantity ci) →
            (placeOrder st user cartId cart o).1
            = "Not enough stock for " ++ shown_name ci
                ++ ". Available: " ++ show_num (v_stock v)
                ++ ", requested: " ++ show_num (ci_quantity ci))).
Proof.
  intros H.
  assert (Hnok : cart ≠ [] → check_stock (product_variants st) cart ≠ CheckOk).
  { intros Hne Hck. destruct H as [->|(ci & v & Hci & Hf & Hlt)]; [done|].
    apply check_stock_ok with (ci := ci) in Hck as (v' & Hv' & Hle); [|done].
    rewrite Hf in Hv'. injection Hv' as <-. lia. }
  split; [|split; [|split; [|]]].
  - unfold placeOrder. destruct user as [u|]; [|done]. destruct cart as [|c cart]; [done|].
    specialize (Hnok ltac:(done)).
    by destruct (check_stock (product_variants st) (c :: cart)).
  - unfold placeOrder. destruct user as [u|]; [|done]. destruct cart as [|c cart]; [done|].
    specialize (Hnok ltac:(done)).
    destruct (check_stock (product_variants st) (c :: cart)); [done|done|].
    unfold not_enough_msg, placed_msg. intros [=].
  - by intros uid -> ->.
  - intros uid pre ci post -> -> Hpre.
    assert (Hplace : ∀ r,
              check_stock (product_variants st) (ci :: post) = r →
              r ≠ CheckOk →
              (placeOrder st (Some uid) cartId (pre ++ ci :: post) o).1
              = match r with
                | CheckShort c v => not_enough_msg c v
                | _ => "Failed to validate stock for an item. Try again."
                end).
    { intros r Hr Hnot. unfold placeOrder.
      destruct (pre ++ ci :: post)%list as [|c l] eqn:E; [by destruct pre|]. rewrite <- E.
      rewrite check_stock_skip, Hr by done. by destruct r. }
    split.
    + intros Hnone. rewrite (Hplace CheckFetchFailed); [done| |done].
      cbn [check_stock]. by rewrite Hnone.
    + intros v Hv Hlt. rewrite (Hplace (CheckShort ci v)); [|  |done].
      * unfold not_enough_msg. by rewrite item_name_shown.
      * cbn [check_stock]. rewrite Hv.
        by destruct (Z.ltb_spec (num_or 0 (v_stock v)) (num_or 0 (ci_quantity ci))); [|lia].
Qed.

(** C3 (counterexample).  The cart holds a line whose variant the store does
    not hold, followed by a line that asks twelve units of a variant holding
    three.  The checkout is refused and changes nothing, but the alert is the
    one of the unreadable line: it does not name the deficient item. *)
Lemma placeOrder_unreadable_line_hides_shortfall :
  let st := sample_store "processing" in
  let cart := [unreadable_line; sample_line 12] in
  (∃ ci v, ci ∈ cart
     ∧ fetch_variant (product_variants st) (ci_product_variant_id ci) = Some v
     ∧ num_or 0 (v_stock v) < num_or 0 (ci_quantity ci))
  ∧ placeOrder st (Some 3%positive) None cart default_opts
    = ("Failed to validate stock for an item. Try again.", st).
Proof.
  cbv zeta. split; [|reflexivity].
  exists (sample_line 12), sample_variant. split; [right; left|]. split; reflexivity.
Qed.

(** *** The order total *)

Lemma price_or0_charged p : price_or0 (p ≫= p_price) = price_charged p.
Proof.
  destruct p as [row|]; [|done]. cbn. unfold price_or0.
  destruct (p_price row) as [x|]; [|done]. by rewrite orb_comm.
Qed.

Lemma units_charged_num_or ci : num_or 1 (ci_quantity ci) = units_charged ci.
Proof.
  unfold units_charged. destruct (ci_quantity ci) as [q|]; [|done]. cbn.
  destruct (Z.eqb_spec q 0), (decide (q = 0)); done.
Qed.

Lemma order_total_sum cart :
  order_total cart = sum_price_times_quantity joined_price units_charged cart.
Proof.
  unfold order_total, sum_price_times_quantity.
  enough (∀ a, fold_left (λ s it, (s + line_amount it)%float) cart a
               = fold_left PrimFloat.add
                   (map (λ ci, (joined_price ci * Z_to_float (units_charged ci))%float) cart) a)
    as Hall by apply Hall.
  induction cart as [|c cart IH]; intros a; [done|]. cbn [fold_left map].
  rewrite IH. unfold line_amount, joined_price.
  by rewrite price_or0_charged, units_charged_num_or.
Qed.

Lemma sum_price_ext price1 price2 units1 units2 cart :
  (∀ ci, ci ∈ cart → price1 ci = price2 ci ∧ units1 ci = units2 ci) →
  sum_price_times_quantity price1 units1 cart = sum_price_times_quantity price2 units2 cart.
Proof.
  intros Hsame. unfold sum_price_times_quantity. f_equal. apply map_ext_in.
  intros ci Hci%list_elem_of_In. by destruct (Hsame ci Hci) as [-> ->].
Qed.

Lemma sum_price_in_sync st units cart :
  cart_in_sync st cart →
  sum_price_times_quantity joined_price units cart
  = sum_price_times_quantity (current_price st) units cart.
Proof.
  intros Hs. apply sum_price_ext. intros ci Hci. split; [|done].
  unfold joined_price, current_price. by rewrite (Hs ci).
Qed.

Lemma units_charged_quantity ci q :
  ci_quantity ci = Some q → q ≠ 0 → units_charged ci = quantity_of ci.
Proof.
  intros Hq Hne. unfold units_charged, quantity_of. rewrite Hq. cbn.
  by destruct (decide (q = 0)).
Qed.

Lemma new_id_fresh {A} (m : gmap id A) : m !! new_id m = None.
Proof. apply not_elem_of_dom. unfold new_id. apply is_fresh. Qed.

(** C6 (as amended).  A checkout that passes the guards and the re-check
    reports success and adds exactly one order (under a key the table did not
    hold) and exactly one payment row.  The order's total is the sum, in cart
    order and in the floating-point arithmetic of the code, over the line
    items of the price on the product row joined to the line times the units
    charged, which are the quantity, or one unit when the quantity is null or
    zero.  That price is the store's current price when the cart view is in
    sync with the store.  The order's status is [processing]; its payment
    status is [paid] when the payment confirmation reports [succeeded] and
    [pending] otherwise.  The payment row has the order's key, total, method
    and payment status, and the confirmation's id as transaction id when
    there is one. *)
Theorem placeOrder_creates_order_and_payment st uid cartId cart o :
  cart ≠ [] →
  check_stock (product_variants st) cart = CheckOk →
  let r := placeOrder st (Some uid) cartId cart o in
  let pd := opt_paymentDetails o in
  r.1 = placed_msg
  ∧ ∃ oid row pay,
      orders st !! oid = None
      ∧ orders r.2 = <[oid := row]> (orders st)
      ∧ payments r.2 = (payments st ++ [pay])%list
      ∧ o_total row = sum_price_times_quantity joined_price units_charged cart
      ∧ (cart_in_sync st cart →
           o_total row = sum_price_times_quantity (current_price st) units_charged cart)
      ∧ ((∀ ci, ci ∈ cart → ∃ q, ci_quantity ci = Some q ∧ q ≠ 0) →
           o_total row = sum_price_times_quantity joined_price quantity_of cart)
      ∧ o_user_id row = uid
      ∧ o_status row = Some "processing"
      ∧ (reports_succeeded pd → o_payment_status row = "paid")
      ∧ (¬ reports_succeeded pd → o_payment_status row = "pending")
      ∧ pay_order_id pay = oid
      ∧ pay_amount pay = o_total row
      ∧ pay_method pay = o_payment_method row
      ∧ pay_status pay = o_payment_status row
      ∧ (∀ d t, pd = Some d → pd_id d = Some t → t ≠ "" → pay_transaction_id pay = Some t)
      ∧ (pd = None ∨ (∃ d, pd = Some d ∧ pd_id d = None) → pay_transaction_id pay = None).
Proof.
  intros Hne Hck r pd. subst r pd. rewrite placeOrder_ok by done. cbn [fst snd].
  split; [done|]. eexists _, _, _. cbn [orders payments order_items].
  split; [apply new_id_fresh|]. split; [reflexivity|]. split; [reflexivity|].
  cbn [o_total o_status o_payment_status o_user_id o_payment_method
    pay_order_id pay_amount pay_method pay_status pay_transaction_id].
  split; [apply order_total_sum|].
  split. { intros Hs. rewrite <- sum_price_in_sync by done. apply order_total_sum. }
  split. { intros Hq. rewrite order_total_sum. apply sum_price_ext. intros ci Hci.
           split; [done|]. destruct (Hq ci Hci) as (q & Hc & Hq0).
           by apply (units_charged_quantity ci q). }
  do 2 (split; [done|]).
  split. { intros (d & -> & Hd). simpl. by rewrite bool_decide_eq_true_2. }
  split. { intros Hn. unfold payment_status_of. destruct (opt_paymentDetails o) as [d|]; [|done].
           case_bool_decide as Hd; [|done]. destruct Hn. by exists d. }
  do 4 (split; [done|]).
  split.
  - intros d t -> Ht Hne'. unfold transaction_id_of. simpl. rewrite Ht.
    apply String.eqb_neq in Hne'. by rewrite Hne'.
  - intros [->|(d & -> & Hd)]; [done|]. unfold transaction_id_of. simpl. by rewrite Hd.
Qed.

(** C6 (counterexample).  The cart line was loaded when the shirt cost 8; the
    store's price is now 10.  The checkout of two units succeeds and writes an
    order, and a payment, of 16: the price joined to the line at the last
    cart load times the quantity, not the product's current price times the
    quantity, which is 20. *)
Lemma checkout_charges_price_of_last_cart_load :
  let st := sample_store "processing" in
  let r := placeOrder st (Some 3%positive) None [stale_line] default_opts in
  r.1 = placed_msg
  ∧ current_price st stale_line = 10%float
  ∧ sum_price_times_quantity (current_price st) quantity_of [stale_line] = 20%float
  ∧ o_total <$> orders r.2 !! new_id (orders st) = Some 16%float
  ∧ pay_amount <$> last (payments r.2) = Some 16%float
  ∧ 16%float ≠ 20%float.
Proof. cbv zeta. repeat split; by vm_compute. Qed.

(** *** The restock block *)

Lemma restore_stock_unfold oid st :
  restore_stock oid st
  = let r := fold_left restore_step (items_of oid (order_items st)) (product_variants st, []) in
    Store (recalc_products r.1 r.2 (products st)) r.1 (orders st) (order_items st)
          (payments st) (user_addresses st) (cart_items st).
Proof.
  unfold restore_stock.
  by destruct (fold_left restore_step (items_of oid (order_items st)) (product_variants st, [])).
Qed.

Lemma restore_stock_variants oid st k :
  product_variants (restore_stock oid st) !! k
  = (λ v, set_stock (replay oi_product_variant_id add_back k
                       (items_of oid (order_items st)) (v_stock v)) v)
      <$> product_variants st !! k.
Proof.
  rewrite restore_stock_unfold. cbn [product_variants].
  rewrite restore_step_stock_step. apply stock_loop_lookup.
Qed.

Lemma restore_stock_products oid st pid :
  affected oi_product_variant_id (product_variants st) (items_of oid (order_items st)) pid →
  products (restore_stock oid st) !! pid
  = with_p_stock (sum_variant_stock (product_variants (restore_stock oid st)) pid)
      <$> products st !! pid.
Proof.
  intros Ha. rewrite restore_stock_unfold. cbn [products product_variants].
  rewrite recalc_products_lookup, restore_step_stock_step.
  rewrite bool_decide_eq_true_2; [done|]. apply stock_loop_pids. by right.
Qed.

Lemma restore_stock_products_other oid st pid :
  ¬ affected oi_product_variant_id (product_variants st) (items_of oid (order_items st)) pid →
  products (restore_stock oid st) !! pid = products st !! pid.
Proof.
  intros Ha. rewrite restore_stock_unfold. cbn [products product_variants].
  rewrite recalc_products_lookup, restore_step_stock_step.
  rewrite bool_decide_eq_false_2; [done|]. rewrite stock_loop_pids.
  intros [Hin|?]; [by inversion Hin|done].
Qed.

Lemma restore_stock_frame oid st :
  orders (restore_stock oid st) = orders st
  ∧ order_items (restore_stock oid st) = order_items st
  ∧ payments (restore_stock oid st) = payments st.
Proof. by rewrite restore_stock_unfold. Qed.

Lemma restock_on_cancel_true prev target :
  restock_on_cancel prev target = true
  ↔ target = "cancelled" ∧ (prev = "pending" ∨ prev = "processing").
Proof.
  unfold restock_on_cancel.
  rewrite andb_true_iff, orb_true_iff, !String.eqb_eq. done.
Qed.

Lemma num_or_0_Some n : num_or 0 (Some n) = n.
Proof. simpl. by destruct (Z.eqb_spec n 0). Qed.

(** Adding quantities back never lowers a stock, as long as no quantity is
    negative. *)
Lemma replay_add_back_ge k items s :
  (∀ it, it ∈ items → 0 ≤ num_or 0 (oi_quantity it)) →
  num_or 0 s ≤ num_or 0 (replay oi_product_variant_id add_back k items s).
Proof.
  unfold replay. revert s. induction items as [|it items IH]; intros s Hq; [done|].
  destruct (decide (oi_product_variant_id it = Some k)) as [Hk|Hk].
  - rewrite filter_cons_True by done. cbn [fold_left].
    etrans; [|apply IH; intros; apply Hq; by right].
    rewrite num_or_0_Some. unfold add_back.
    assert (0 ≤ num_or 0 (oi_quantity it)) by (apply Hq; left). lia.
  - rewrite filter_cons_False by done. apply IH. intros; apply Hq; by right.
Qed.

Lemma restore_stock_never_lowers oid st k v :
  (∀ it, it ∈ order_items st → 0 ≤ num_or 0 (oi_quantity it)) →
  product_variants st !! k = Some v →
  ∃ v', product_variants (restore_stock oid st) !! k = Some v'
        ∧ num_or 0 (v_stock v) ≤ num_or 0 (v_stock v').
Proof.
  intros Hq Hv. rewrite restore_stock_variants, Hv. eexists. split; [done|].
  cbn [v_stock set_stock]. apply replay_add_back_ge.
  intros it Hit. apply Hq. unfold items_of in Hit.
  by apply list_elem_of_filter in Hit as [_ ?].
Qed.

(** [deleteOrder] restocks only an order that is [pending] or [processing]. *)
Lemma deleteOrder_restocks_only_early st oid :
  status_lc (orders st !! oid ≫= o_status) ≠ "pending" →
  status_lc (orders st !! oid ≫= o_status) ≠ "processing" →
  product_variants (deleteOrder st oid).2 = product_variants st
  ∧ products (deleteOrder st oid).2 = products st.
Proof.
  intros H1%String.eqb_neq H2%String.eqb_neq. unfold deleteOrder.
  rewrite H1, H2, andb_false_r. done.
Qed.

(** *** The restock in the spec's words *)

Lemma items_of_variant oid k items :
  filter (λ it, oi_product_variant_id it = Some k) (items_of oid items)
  = filter (λ it, oi_order_id it = oid ∧ oi_product_variant_id it = Some k) items.
Proof.
  unfold items_of. induction items as [|it items IH]; [done|].
  destruct (decide (oi_order_id it = oid)) as [Ho|Ho].
  - rewrite (filter_cons_True (λ it, oi_order_id it = oid)) by done.
    destruct (decide (oi_product_variant_id it = Some k)) as [Hk|Hk].
    + rewrite !filter_cons_True by done. by rewrite IH.
    + rewrite !filter_cons_False by tauto. done.
  - rewrite (filter_cons_False (λ it, oi_order_id it = oid)) by done.
    rewrite filter_cons_False by tauto. done.
Qed.

Lemma fold_add_back (l : list order_item) (s : option Z) :
  fold_left (λ s it, Some (add_back s it)) l s
  = match (λ it, default 0 (oi_quantity it)) <$> l with
    | [] => s
    | qs => Some (default 0 s + foldr Z.add 0 qs)
    end.
Proof.
  revert s. induction l as [|it l IH]; intros s; [done|]. cbn [fold_left].
  rewrite IH. cbn [fmap list_fmap foldr]. unfold add_back. rewrite !num_or_0_default.
  destruct l as [|it' l]; cbn [fmap list_fmap foldr]; f_equal;
    change (default 0 (Some ?x)) with x; lia.
Qed.

(** The stock the restock loop leaves a variant with is its stock plus the
    quantities of the order's items that name it. *)
Lemma replay_add_back oid k items s :
  replay oi_product_variant_id add_back k (items_of oid items) s
  = stock_after_return oid k items s.
Proof.
  unfold replay, stock_after_return, returned_quantities.
  rewrite items_of_variant. apply fold_add_back.
Qed.

Lemma affected_returned st oid pid :
  affected oi_product_variant_id (product_variants st) (items_of oid (order_items st)) pid
  ↔ owns_returned_variant st oid pid.
Proof.
  unfold affected, owns_returned_variant, owner_of, fetch_variant, items_of. split.
  - intros (it & [Ho Hit]%list_elem_of_filter & Hown).
    destruct (oi_product_variant_id it) as [k|] eqn:Hk; [|done].
    destruct (product_variants st !! k) as [v|] eqn:Hv; [|done].
    injection Hown as Hown. by exists it, k, v.
  - intros (it & k & v & Hit & Ho & Hk & Hv & Hp). exists it.
    split; [by apply list_elem_of_filter|]. rewrite Hk, Hv. cbn. by rewrite Hp.
Qed.

(** What the restock block does to the two stock tables, whatever the order
    table holds. *)
Lemma restore_stock_spec oid f st :
  let st' := restore_stock oid (set_orders f st) in
  (∀ k, product_variants st' !! k
        = (λ v, set_stock (stock_after_return oid k (order_items st) (v_stock v)) v)
            <$> product_variants st !! k)
  ∧ (∀ pid, owns_returned_variant st oid pid →
       products st' !! pid
       = product_with_stock (total_variant_stock (product_variants st') pid)
           <$> products st !! pid)
  ∧ (∀ pid, ¬ owns_returned_variant st oid pid → products st' !! pid = products st !! pid).
Proof.
  cbv zeta. split; [|split].
  - intros k. rewrite restore_stock_variants. cbn [set_orders product_variants order_items].
    destruct (product_variants st !! k) as [v|]; [|done]. cbn. by rewrite replay_add_back.
  - intros pid Ha. rewrite restore_stock_products.
    + by rewrite sum_variant_stock_total.
    + by apply affected_returned.
  - intros pid Ha. rewrite restore_stock_products_other; [done|].
    intros Haff. apply Ha. by apply affected_returned.
Qed.

(** C5. [updateStatus] on an existing order writes the new status and then
    restocks exactly when the target status is [cancelled] and the previous
    one was [pending] or [processing].  In that case every variant ends with
    its stock plus the quantities of the order's items that name it, and
    every product owning such a variant gets a stock field equal to the sum
    of the stock of all its variants, the other products being untouched.  In
    every other case the variant and product tables are left as they were; in
    particular cancelling an order that is [shipping] records the new status
    and changes no stock. *)
Theorem updateStatus_restocks_iff st oid newStatus ord :
  orders st !! oid = Some ord →
  let r := updateStatus st oid newStatus in
  let prev := status_lc (o_status ord) in
  let fires := status_lc newStatus = "cancelled" ∧ (prev = "pending" ∨ prev = "processing") in
  r.1 = "Status updated"
  ∧ orders r.2 !! oid = Some (order_with_status newStatus ord)
  ∧ (fires →
       (∀ k, product_variants r.2 !! k
             = (λ v, set_stock (stock_after_return oid k (order_items st) (v_stock v)) v)
                 <$> product_variants st !! k)
       ∧ (∀ pid, owns_returned_variant st oid pid →
            products r.2 !! pid
            = product_with_stock (total_variant_stock (product_variants r.2) pid)
                <$> products st !! pid)
       ∧ (∀ pid, ¬ owns_returned_variant st oid pid →
            products r.2 !! pid = products st !! pid))
  ∧ (¬ fires → product_variants r.2 = product_variants st ∧ products r.2 = products st)
  ∧ (prev = "shipping" → status_lc newStatus = "cancelled" →
       o_status <$> orders r.2 !! oid = Some newStatus
       ∧ product_variants r.2 = product_variants st
       ∧ products r.2 = products st).
Proof.
  intros Hord r prev fires. subst r prev fires.
  unfold updateStatus. rewrite Hord. cbn [fst snd].
  set (st1 := set_orders (alter (with_status newStatus) oid) st).
  assert (Ho1 : orders st1 !! oid = Some (order_with_status newStatus ord)).
  { subst st1. cbn. by rewrite lookup_alter_eq, Hord. }
  destruct (restock_on_cancel (status_lc (o_status ord)) (status_lc newStatus)) eqn:Hr.
  - apply restock_on_cancel_true in Hr as Hfire.
    destruct (restore_stock_frame oid st1) as (Hfo & _ & _).
    split; [done|]. split; [by rewrite Hfo|]. split; [|split].
    + intros _. apply restore_stock_spec.
    + intros Hn. by destruct Hn.
    + intros Hs _. destruct Hfire as [_ [Hp|Hp]]; rewrite Hs in Hp; discriminate.
  - assert (Hnf : ¬ (status_lc newStatus = "cancelled"
                     ∧ (status_lc (o_status ord) = "pending"
                        ∨ status_lc (o_status ord) = "processing"))).
    { intros Hf. apply restock_on_cancel_true in Hf. congruence. }
    split; [done|]. split; [done|]. split; [by intros ?|]. split; [done|].
    intros _ _. by rewrite Ho1.
Qed.

(** *** Order items are only ever appended to *)

Lemma handleEditSave_order_items st f :
  order_items (handleEditSave st f).2 = order_items st.
Proof.
  unfold handleEditSave. destruct (ef_variants f); [done|].
  by destruct (edit_loop _ _ _) as [[msg|] acc].
Qed.

Lemma handleAddProduct_order_items st f :
  order_items (handleAddProduct st f).2 = order_items st.
Proof.
  unfold handleAddProduct. destruct (af_variants f); [done|].
  by destruct (upload_all _ _).
Qed.

Lemma handleDeleteProduct_order_items st pid confirmed :
  order_items (handleDeleteProduct st pid confirmed) = order_items st.
Proof. unfold handleDeleteProduct. by destruct confirmed. Qed.

Lemma run_order_items st o :
  ∃ new, order_items (run st o) = (order_items st ++ new)%list.
Proof.
  destruct o as [user cartId cart opts|orderId confirmed|orderId ns|orderId|f|f|pid confirmed];
    cbn [run].
  - unfold placeOrder. destruct user; [|by exists []; rewrite app_nil_r].
    destruct cart as [|c cart]; [by exists []; rewrite app_nil_r|].
    destruct (check_stock _ _); try (by exists []; rewrite app_nil_r).
    destruct (deduct_all _ _). by eexists.
  - exists []. rewrite app_nil_r. unfold cancelOrder.
    destruct orderId as [oid|]; [|done]. destruct (negb confirmed); [done|].
    destruct (cancel_blocked _); [done|]. cbn [snd].
    by destruct (restore_stock_frame oid
                   (set_orders (alter (with_status (Some "cancelled")) oid) st))
      as (_ & -> & _).
  - exists []. rewrite app_nil_r. unfold updateStatus.
    destruct (orders st !! orderId); [|done]. cbn [snd].
    destruct (restock_on_cancel _ _); [|done].
    by destruct (restore_stock_frame orderId
                   (set_orders (alter (with_status ns) orderId) st)) as (_ & -> & _).
  - exists []. rewrite app_nil_r. unfold deleteOrder. cbn [snd].
    destruct (_ && _); [|done]. cbn.
    by destruct (restore_stock_frame orderId st) as (_ & -> & _).
  - exists []. by rewrite app_nil_r, handleAddProduct_order_items.
  - exists []. by rewrite app_nil_r, handleEditSave_order_items.
  - exists []. by rewrite app_nil_r, handleDeleteProduct_order_items.
Qed.

Lemma run_all_order_items ops st :
  ∃ new, order_items (run_all st ops) = (order_items st ++ new)%list.
Proof.
  unfold run_all. revert st. induction ops as [|o ops IH]; intros st; simpl.
  - exists []. by rewrite app_nil_r.
  - destruct (IH (run st o)) as [new2 ->]. destruct (run_order_items st o) as [new1 ->].
    exists (new1 ++ new2)%list. by rewrite app_assoc.
Qed.

(** C7. A row of [order_items] (and with it the name, price, colour, size and
    image it snapshots) stays in place, unchanged, through any sequence of
    checkouts, cancellations, status updates, order deletions, product
    additions, product edits and product deletions; the product edit and the
    product deletion leave the whole table as it was. *)
Theorem order_items_rows_immutable st ops (i : nat) row :
  order_items st !! i = Some row →
  order_items (run_all st ops) !! i = Some row
  ∧ (∀ f, order_items (run (run_all st ops) (OpEditSave f)) = order_items (run_all st ops))
  ∧ (∀ pid c, order_items (run (run_all st ops) (OpDeleteProduct pid c))
              = order_items (run_all st ops)).
Proof.
  intros Hrow. split; [|split].
  - destruct (run_all_order_items ops st) as [new ->]. by apply lookup_app_l_Some.
  - intros f. apply handleEditSave_order_items.
  - intros pid c. apply handleDeleteProduct_order_items.
Qed.

(** *** The customer's cancel guard *)

Lemma cancelOrder_blocked st oid confirmed :
  cancel_blocked (status_lc (orders st !! oid ≫= o_status)) = true →
  (cancelOrder st (Some oid) confirmed).2 = st
  ∧ (confirmed = true →
       (cancelOrder st (Some oid) confirmed).1 = Some "This order cannot be cancelled").
Proof.
  intros Hb. unfold cancelOrder. destruct confirmed; cbn [negb]; [|done]. by rewrite Hb.
Qed.

Lemma cancelOrder_proceeds st oid :
  cancel_blocked (status_lc (orders st !! oid ≫= o_status)) = false →
  cancelOrder st (Some oid) true
  = (Some "Order cancelled and stock restored (if applicable)",
     restore_stock oid (set_orders (alter (with_status (Some "cancelled")) oid) st)).
Proof. intros Hb. unfold cancelOrder. cbn [negb]. by rewrite Hb. Qed.

(** The legacy spellings are not among the statuses the guard compares with. *)
Lemma cancel_blocked_legacy s :
  s ∈ ["shipped"; "successful"; "success"; "completed"; "canceled"] →
  cancel_blocked s = false.
Proof. intros Hin. repeat (apply elem_of_cons in Hin as [->|Hin]; [done|]). by inversion Hin. Qed.

Lemma cancelOrder_legacy_proceeds st oid ord :
  orders st !! oid = Some ord →
  status_lc (o_status ord) ∈ ["shipped"; "successful"; "success"; "completed"; "canceled"] →
  cancelOrder st (Some oid) true
  = (Some "Order cancelled and stock restored (if applicable)",
     restore_stock oid (set_orders (alter (with_status (Some "cancelled")) oid) st)).
Proof.
  intros Hord Hin. apply cancelOrder_proceeds. rewrite Hord. cbn.
  by apply cancel_blocked_legacy.
Qed.

(** C1 (evaluation at the failing input).  The customer cancels an order
    whose status is [shipped]: the guard lets it through, the order becomes
    [cancelled], and the two units of its item are added back to the variant
    (three before, five after) and to the product's stock. *)
Theorem cancelOrder_shipped_restores_stock :
  let st := sample_store "shipped" in
  let r := cancelOrder st (Some 4%positive) true in
  r.1 = Some "Order cancelled and stock restored (if applicable)"
  ∧ v_stock <$> product_variants st !! 7%positive = Some (Some 3)
  ∧ v_stock <$> product_variants r.2 !! 7%positive = Some (Some 5)
  ∧ p_stock <$> products r.2 !! 1%positive = Some (Some 5)
  ∧ (o_status <$> orders r.2 !! 4%positive) = Some (Some "cancelled").
Proof. vm_compute. repeat split. Qed.

(** C4 (evaluation at the failing input).  The customer cancels an order
    whose status is [completed], a legacy spelling of delivered, and one whose
    status is [canceled]: neither is rejected; the order row is rewritten to
    [cancelled] and the stock is added back. *)
Theorem cancelOrder_legacy_status_not_rejected :
  (let r := cancelOrder (sample_store "completed") (Some 4%positive) true in
   r.1 = Some "Order cancelled and stock restored (if applicable)"
   ∧ r.2 ≠ sample_store "completed"
   ∧ (o_status <$> orders r.2 !! 4%positive) = Some (Some "cancelled")
   ∧ v_stock <$> product_variants r.2 !! 7%positive = Some (Some 5))
  ∧ (let r := cancelOrder (sample_store "canceled") (Some 4%positive) true in
     r.1 = Some "Order cancelled and stock restored (if applicable)"
     ∧ (o_status <$> orders r.2 !! 4%positive) = Some (Some "cancelled")
     ∧ v_stock <$> product_variants r.2 !! 7%positive = Some (Some 5)).
Proof.
  split.
  - cbv zeta. split; [by vm_compute|]. split.
    + intros Heq. apply (f_equal (λ s, o_status <$> orders s !! 4%positive)) in Heq.
      vm_compute in Heq. discriminate.
    + split; by vm_compute.
  - cbv zeta. repeat split; by vm_compute.
Qed.

(** ** The payment relay *)

Section relay_facts.
Import Relay.

Lemma on_end_syntax_error rt catch after body err :
  JSON_parse rt (if String.eqb body "" then "{}" else body) = inl err →
  on_end rt catch after body = (catch err, []).
Proof. intros H. unfold on_end. by rewrite H. Qed.

Lemma invalid_of_nonpositive rt a :
  amount_missing_or_nonpositive rt a →
  invalid_amount (Number rt (or_else a (JNum (Num 0)))) = true.
Proof.
  unfold amount_missing_or_nonpositive, or_else. destruct a as [v|]; [|done].
  destruct (truthy v); [|done].
  unfold invalid_amount. destruct (Number rt v) as [|q|[]]; simpl; try done.
  intros Hq. apply Qle_bool_iff in Hq. rewrite Hq. apply orb_true_r.
Qed.

Lemma on_end_invalid_amount rt catch after body payload a :
  JSON_parse rt (if String.eqb body "" then "{}" else body) = inr payload →
  get_prop payload "amount" = inr a →
  amount_missing_or_nonpositive rt a →
  on_end rt catch after body = invalid_amount_response.
Proof.
  intros Hp Ha Hinv. unfold on_end. rewrite Hp, Ha.
  by rewrite invalid_of_nonpositive.
Qed.

(** A body that parses to [null] makes the property read throw; the handler
    answers through its [catch] block. *)
Lemma on_end_null_payload rt catch after body :
  JSON_parse rt (if String.eqb body "" then "{}" else body) = inr JNull →
  on_end rt catch after body
  = (catch (Some "Cannot read properties of null (reading 'amount')"), []).
Proof. intros H. unfold on_end. by rewrite H. Qed.

Lemma api_handler_post rt e req :
  method req = "POST" →
  api_handler rt e req
  = if String.eqb (stripeSecret e) ""
    then (Response 500 defaultHeaders
            (Json (error_obj "Stripe secret key not configured on server")), [])
    else on_end rt api_catch api_after_create (req_body req).
Proof. intros Hm. unfold api_handler. by rewrite Hm. Qed.

Lemma server_handler_post rt req :
  method req = "POST" → url req = "/create-payment-intent" →
  server_handler rt req = on_end rt server_catch server_after_create (req_body req).
Proof. intros Hm Hu. unfold server_handler. by rewrite Hm, Hu. Qed.

(** C8 (as amended).  A POST whose body parses to a value other than [null]
    and whose amount is absent, zero or negative after [Number] is answered
    with 400 [Invalid amount] by the standalone server (on
    [/create-payment-intent]) and by the serverless handler when a processor
    key is configured; without a key the serverless handler answers 500.  No
    request is sent to the processor in any of these cases. *)
Theorem relay_rejects_invalid_amount rt e req payload a :
  method req = "POST" →
  JSON_parse rt (if String.eqb (req_body req) "" then "{}" else req_body req) = inr payload →
  get_prop payload "amount" = inr a →
  amount_missing_or_nonpositive rt a →
  (url req = "/create-payment-intent" → server_handler rt req = invalid_amount_response)
  ∧ (stripeSecret e ≠ "" → api_handler rt e req = invalid_amount_response)
  ∧ (stripeSecret e = "" →
       status (api_handler rt e req).1 = 500 ∧ (api_handler rt e req).2 = []).
Proof.
  intros Hm Hp Ha Hinv. split; [|split].
  - intros Hu. rewrite server_handler_post by done. by eapply on_end_invalid_amount.
  - intros Hs. rewrite api_handler_post by done.
    apply String.eqb_neq in Hs. rewrite Hs. by eapply on_end_invalid_amount.
  - intros Hs. rewrite api_handler_post by done. by rewrite Hs.
Qed.

(** C8 (counterexample).  A POST to [/create-payment-intent] with the body
    [{"amount":0}], handled by the serverless handler with no processor key in
    the environment, is answered with 500, not with 400 [Invalid amount]. *)
Lemma api_unconfigured_amount_zero :
  let req := Request "POST" "/create-payment-intent" amount_zero_body in
  JSON_parse sample_runtime (req_body req) = inr (JObj [("amount", JNum (Num 0))])
  ∧ api_handler sample_runtime unconfigured req
    = (Response 500 defaultHeaders
         (Json (error_obj "Stripe secret key not configured on server")), [])
  ∧ api_handler sample_runtime unconfigured req ≠ invalid_amount_response.
Proof. cbv zeta. split; [by vm_compute|]. split; [by vm_compute|]. by vm_compute. Qed.

(** C9 (as amended).  Both handlers answer an OPTIONS request with 204, the
    CORS headers and no body.  The serverless handler answers every request
    that is neither OPTIONS nor POST with 404 and the JSON body
    [{error: "Not found"}]; the standalone server answers every request that
    is not OPTIONS, POST [/create-payment-intent] or GET [/health] with 404,
    no headers and the text [Not found]. *)
Theorem relay_preflight_and_not_found rt e req :
  (method req = "OPTIONS" →
     api_handler rt e req = (Response 204 defaultHeaders NoBody, [])
     ∧ server_handler rt req = (Response 204 defaultHeaders NoBody, []))
  ∧ (method req ≠ "OPTIONS" → method req ≠ "POST" →
       api_handler rt e req
       = (Response 404 defaultHeaders (Json (error_obj "Not found")), []))
  ∧ (method req ≠ "OPTIONS" →
     ¬ (method req = "POST" ∧ url req = "/create-payment-intent") →
     ¬ (method req = "GET" ∧ url req = "/health") →
       server_handler rt req = (Response 404 [] (Text "Not found"), [])).
Proof.
  unfold api_handler, server_handler. split; [|split].
  - intros ->. done.
  - intros H1%String.eqb_neq H2%String.eqb_neq. by rewrite H1, H2.
  - intros H1%String.eqb_neq H2 H3. rewrite H1.
    destruct (String.eqb_spec (method req) "POST") as [Hp|_];
      destruct (String.eqb_spec (url req) "/create-payment-intent") as [Hu|_];
      try (by destruct H2); cbn [andb];
      destruct (String.eqb_spec (method req) "GET") as [Hg|_];
      destruct (String.eqb_spec (url req) "/health") as [Hh|_];
      try (by destruct H3); done.
Qed.

(** The serverless handler does not look at the path: a POST to any path
    with a usable amount reaches the processor. *)
Lemma api_post_any_path :
  let r := api_handler sample_runtime configured (Request "POST" "/nope" amount_1500_body) in
  status r.1 = 200 ∧ length r.2 = 1%nat.
Proof. cbv zeta. split; by vm_compute. Qed.

(** C9 (counterexample).  GET [/nope] is none of OPTIONS, POST
    [/create-payment-intent] and GET [/health]; the standalone server answers
    it with 404 and the text [Not found], which is not the JSON body
    [{error: "Not found"}], and with no CORS header. *)
Lemma server_not_found_is_plain_text :
  let req := Request "GET" "/nope" "" in
  let r := (server_handler sample_runtime req).1 in
  status r = 404
  ∧ res_body r = Text "Not found"
  ∧ res_body r ≠ Json (error_obj "Not found")
  ∧ headers r = [].
Proof. cbv zeta. repeat split; by vm_compute. Qed.

(** C10 (as amended).  A POST whose non-empty body [JSON.parse] rejects is
    answered with status 500 by both handlers, with no request to the
    processor.  An empty body is parsed as [{}] and answered with 400
    [Invalid amount] by the standalone server, and by the serverless handler
    when a processor key is configured. *)
Theorem relay_malformed_and_empty_body rt e req :
  method req = "POST" →
  (∀ err, req_body req ≠ "" → JSON_parse rt (req_body req) = inl err →
     status (api_handler rt e req).1 = 500 ∧ (api_handler rt e req).2 = []
     ∧ (api_handler rt e req).1 ≠ invalid_amount_response.1
     ∧ (url req = "/create-payment-intent" →
          server_handler rt req = (server_catch err, [])
          ∧ status (server_handler rt req).1 = 500))
  ∧ (req_body req = "" → JSON_parse rt "{}" = inr (JObj []) →
       (url req = "/create-payment-intent" → server_handler rt req = invalid_amount_response)
       ∧ (stripeSecret e ≠ "" → api_handler rt e req = invalid_amount_response)).
Proof.
  intros Hm. split.
  - intros err Hne Hp.
    assert (Hb : JSON_parse rt (if String.eqb (req_body req) "" then "{}" else req_body req)
                 = inl err).
    { apply String.eqb_neq in Hne. by rewrite Hne. }
    rewrite api_handler_post by done.
    split; [|split; [|split]].
    + destruct (String.eqb (stripeSecret e) ""); [done|].
      by rewrite (on_end_syntax_error _ _ _ _ err).
    + destruct (String.eqb (stripeSecret e) ""); [done|].
      by rewrite (on_end_syntax_error _ _ _ _ err).
    + destruct (String.eqb (stripeSecret e) ""); [done|].
      by rewrite (on_end_syntax_error _ _ _ _ err).
    + intros Hu. rewrite server_handler_post by done.
      by rewrite (on_end_syntax_error _ _ _ _ err).
  - intros Hb Hp.
    assert (Hon : ∀ catch after,
              on_end rt catch after (req_body req) = invalid_amount_response).
    { intros catch after. apply (on_end_invalid_amount _ _ _ _ (JObj []) None); [|done|done].
      by rewrite Hb. }
    split.
    + intros Hu. by rewrite server_handler_post.
    + intros Hs. rewrite api_handler_post by done.
      apply String.eqb_neq in Hs. by rewrite Hs.
Qed.

(** C10 (counterexample).  A POST with an empty body, handled by the
    serverless handler with no processor key in the environment, is answered
    with 500, not with 400. *)
Lemma api_unconfigured_empty_body :
  let req := Request "POST" "/create-payment-intent" "" in
  JSON_parse sample_runtime "{}" = inr (JObj [])
  ∧ status (api_handler sample_runtime unconfigured req).1 = 500
  ∧ api_handler sample_runtime unconfigured req ≠ invalid_amount_response.
Proof. cbv zeta. repeat split; by vm_compute. Qed.

End relay_facts.

(** ** Instances

    Each statement above that carries hypotheses, applied to the sample
    store. *)

(** C2 at the two-product store: two of the three units of the shirt's first
    variant are bought.  The variant ends with one unit, the shirt with five
    (one and four), and the cap keeps its six. *)
Lemma placeOrder_deducts_and_recomputes_witness :
  [sample_line 2] ≠ []
  ∧ check_stock (product_variants (shop "processing")) [sample_line 2] = CheckOk
  ∧ v_stock <$> product_variants
        (placeOrder (shop "processing") (Some 3%positive) None
                    [sample_line 2] default_opts).2 !! 7%positive
    = Some (Some 1)
  ∧ p_stock <$> products
        (placeOrder (shop "processing") (Some 3%positive) None
                    [sample_line 2] default_opts).2 !! 1%positive
    = Some (Some 5)
  ∧ p_stock <$> products
        (placeOrder (shop "processing") (Some 3%positive) None
                    [sample_line 2] default_opts).2 !! 2%positive
    = Some (Some 6).
Proof.
  assert (H1 : [sample_line 2] ≠ []) by discriminate.
  assert (H2 : check_stock (product_variants (shop "processing")) [sample_line 2]
               = CheckOk) by reflexivity.
  destruct (placeOrder_deducts_and_recomputes (shop "processing") 3%positive None
              [sample_line 2] default_opts H1 H2) as (Hlook & _ & Hprod & Hother).
  split; [exact H1|]. split; [exact H2|]. split; [|split].
  - rewrite Hlook. reflexivity.
  - rewrite Hprod.
    + vm_compute. reflexivity.
    + exists (sample_line 2), 7%positive, sample_variant.
      split; [left|]. repeat split; reflexivity.
  - rewrite Hother; [reflexivity|].
    intros (ci & k & v & Hci & Hk & Hv & Hp).
    apply list_elem_of_singleton in Hci. subst ci. injection Hk as <-.
    injection Hv as <-. discriminate.
Defined.

(** C3 at the sample store: twelve units are asked of a variant holding three. *)
Lemma placeOrder_rejects_before_mutation_witness :
  (∃ ci v, ci ∈ [sample_line 12]
     ∧ fetch_variant (product_variants (sample_store "processing"))
         (ci_product_variant_id ci) = Some v
     ∧ num_or 0 (v_stock v) < num_or 0 (ci_quantity ci))
  ∧ (placeOrder (sample_store "processing") (Some 3%positive) None
                [sample_line 12] default_opts).2
    = sample_store "processing"
  ∧ (placeOrder (sample_store "processing") (Some 3%positive) None
                [sample_line 12] default_opts).1
    = "Not enough stock for Shirt. Available: 3, requested: 12".
Proof.
  assert (H : ∃ ci v, ci ∈ [sample_line 12]
     ∧ fetch_variant (product_variants (sample_store "processing"))
         (ci_product_variant_id ci) = Some v
     ∧ num_or 0 (v_stock v) < num_or 0 (ci_quantity ci)).
  { exists (sample_line 12), sample_variant. split; [left|]. split; [reflexivity|].
    reflexivity. }
  destruct (placeOrder_rejects_before_mutation (sample_store "processing") (Some 3%positive)
              None [sample_line 12] default_opts (or_intror H)) as (Hst & _ & _ & Hmsg).
  split; [exact H|]. split; [exact Hst|].
  destruct (Hmsg 3%positive [] (sample_line 12) [] eq_refl eq_refl) as [_ Hshort].
  - intros c Hc. by apply elem_of_nil in Hc.
  - rewrite (Hshort sample_variant eq_refl eq_refl). reflexivity.
Defined.

(** C5 at the two-product store.  The admin cancels an order that is
    [processing]: its two units go back to the shirt's first variant (three
    before, five after) and the shirt's stock becomes nine (five and four),
    the cap keeping its six.  The admin cancels the same order when it is
    [shipping]: the status is recorded and no stock changes. *)
Lemma updateStatus_restocks_iff_witness :
  orders (shop "processing") !! 4%positive = Some (sample_order "processing")
  ∧ (status_lc (Some "Cancelled") = "cancelled"
     ∧ (status_lc (o_status (sample_order "processing")) = "pending"
        ∨ status_lc (o_status (sample_order "processing")) = "processing"))
  ∧ (let r := updateStatus (shop "processing") 4 (Some "Cancelled") in
     o_status <$> orders r.2 !! 4%positive = Some (Some "Cancelled")
     ∧ v_stock <$> product_variants r.2 !! 7%positive = Some (Some 5)
     ∧ v_stock <$> product_variants r.2 !! 8%positive = Some (Some 4)
     ∧ p_stock <$> products r.2 !! 1%positive = Some (Some 9)
     ∧ p_stock <$> products r.2 !! 2%positive = Some (Some 6))
  ∧ (let r := updateStatus (shop "shipping") 4 (Some "Cancelled") in
     o_status <$> orders r.2 !! 4%positive = Some (Some "Cancelled")
     ∧ product_variants r.2 = product_variants (shop "shipping")
     ∧ products r.2 = products (shop "shipping")).
Proof.
  assert (H : orders (shop "processing") !! 4%positive = Some (sample_order "processing"))
    by reflexivity.
  assert (Hf : status_lc (Some "Cancelled") = "cancelled"
               ∧ (status_lc (o_status (sample_order "processing")) = "pending"
                  ∨ status_lc (o_status (sample_order "processing")) = "processing")).
  { split; [reflexivity|]. right. reflexivity. }
  split; [exact H|]. split; [exact Hf|]. split.
  - destruct (updateStatus_restocks_iff (shop "processing") 4%positive
                (Some "Cancelled") (sample_order "processing") H)
      as (_ & Hord & Hfires & _ & _).
    destruct (Hfires Hf) as (Hvar & Hprod & Hother). cbv zeta.
    split; [by rewrite Hord|]. split; [by rewrite Hvar|]. split; [by rewrite Hvar|]. split.
    + rewrite Hprod.
      * vm_compute. reflexivity.
      * exists sample_item, 7%positive, sample_variant.
        split; [left|]. repeat split; reflexivity.
    + rewrite Hother; [reflexivity|].
      intros (it & k & v & Hit & _ & Hk & Hv & Hp).
      apply list_elem_of_singleton in Hit. subst it. injection Hk as <-.
      injection Hv as <-. discriminate.
  - destruct (updateStatus_restocks_iff (shop "shipping") 4%positive
                (Some "Cancelled") (sample_order "shipping") eq_refl)
      as (_ & _ & _ & _ & Hship).
    apply Hship; reflexivity.
Defined.

(** C6 at the sample store: a card payment that succeeded, for two shirts at
    10 each.  One order of 20, marked paid, and one payment of 20 carrying the
    confirmation's id are written. *)
Lemma placeOrder_creates_order_and_payment_witness :
  let st := sample_store "processing" in
  let o := PlaceOpts None None "card" (Some (PaymentDetails (Some "pi_9") (Some "succeeded"))) in
  let r := placeOrder st (Some 3%positive) None [sample_line 2] o in
  [sample_line 2] ≠ []
  ∧ check_stock (product_variants st) [sample_line 2] = CheckOk
  ∧ r.1 = placed_msg
  ∧ ∃ oid row pay,
      orders st !! oid = None
      ∧ orders r.2 = <[oid := row]> (orders st)
      ∧ payments r.2 = (payments st ++ [pay])%list
      ∧ o_total row = 20%float
      ∧ o_payment_status row = "paid"
      ∧ pay_amount pay = 20%float
      ∧ pay_transaction_id pay = Some "pi_9".
Proof.
  cbv zeta.
  assert (H1 : [sample_line 2] ≠ []) by discriminate.
  assert (H2 : check_stock (product_variants (sample_store "processing")) [sample_line 2]
               = CheckOk) by reflexivity.
  split; [exact H1|]. split; [exact H2|].
  destruct (placeOrder_creates_order_and_payment (sample_store "processing") 3%positive
              None [sample_line 2]
              (PlaceOpts None None "card"
                 (Some (PaymentDetails (Some "pi_9") (Some "succeeded"))))
              H1 H2)
    as (Hmsg & oid & row & pay & Hnone & Horders & Hpays & Htotal & _ & _ & _ & _
        & Hpaid & _ & _ & Hamount & _ & _ & Htid & _).
  split; [exact Hmsg|]. exists oid, row, pay.
  split; [exact Hnone|]. split; [exact Horders|]. split; [exact Hpays|].
  split; [rewrite Htotal; reflexivity|].
  split. { apply Hpaid. eexists. split; reflexivity. }
  split; [rewrite Hamount, Htotal; reflexivity|].
  apply (Htid _ "pi_9" eq_refl eq_refl). discriminate.
Defined.

(** C7 at the sample store: the product is edited, then deleted, then the
    order is cancelled by the admin; the order's item row stays as it was. *)
Lemma order_items_rows_immutable_witness :
  order_items (sample_store "processing") !! 0%nat = Some sample_item
  ∧ order_items
      (run_all (sample_store "processing")
         [OpEditSave sample_form; OpDeleteProduct 1 true;
          OpUpdateStatus 4 (Some "Cancelled")]) !! 0%nat
    = Some sample_item.
Proof.
  assert (H : order_items (sample_store "processing") !! 0%nat = Some sample_item)
    by reflexivity.
  split; [exact H|].
  exact (proj1 (order_items_rows_immutable (sample_store "processing")
                  [OpEditSave sample_form; OpDeleteProduct 1 true;
                   OpUpdateStatus 4 (Some "Cancelled")] 0%nat sample_item H)).
Defined.

Section relay_instances.
Import Relay.

(** C8 with a key configured: the body [{"amount":0}] is answered with 400
    by both handlers. *)
Lemma relay_rejects_invalid_amount_witness :
  JSON_parse sample_runtime amount_zero_body = inr (JObj [("amount", JNum (Num 0))])
  ∧ amount_missing_or_nonpositive sample_runtime (Some (JNum (Num 0)))
  ∧ server_handler sample_runtime (Request "POST" "/create-payment-intent" amount_zero_body)
    = invalid_amount_response
  ∧ api_handler sample_runtime configured
      (Request "POST" "/create-payment-intent" amount_zero_body)
    = invalid_amount_response.
Proof.
  assert (Hp : JSON_parse sample_runtime amount_zero_body
               = inr (JObj [("amount", JNum (Num 0))])) by reflexivity.
  assert (Ha : amount_missing_or_nonpositive sample_runtime (Some (JNum (Num 0)))).
  { cbn. discriminate. }
  destruct (relay_rejects_invalid_amount sample_runtime configured
              (Request "POST" "/create-payment-intent" amount_zero_body)
              (JObj [("amount", JNum (Num 0))]) (Some (JNum (Num 0)))
              eq_refl Hp eq_refl Ha) as (Hs & Hc & _).
  split; [exact Hp|]. split; [exact Ha|]. split.
  - apply Hs. reflexivity.
  - apply Hc. discriminate.
Defined.

(** C9 at a DELETE request, which neither handler routes. *)
Lemma relay_preflight_and_not_found_witness :
  api_handler sample_runtime configured (Request "DELETE" "/create-payment-intent" "")
  = (Response 404 defaultHeaders (Json (error_obj "Not found")), [])
  ∧ server_handler sample_runtime (Request "DELETE" "/create-payment-intent" "")
    = (Response 404 [] (Text "Not found"), []).
Proof.
  destruct (relay_preflight_and_not_found sample_runtime configured
              (Request "DELETE" "/create-payment-intent" "")) as (_ & Hapi & Hsrv).
  split.
  - apply Hapi; discriminate.
  - apply Hsrv; [discriminate | intros [? _]; discriminate | intros [? _]; discriminate].
Defined.

(** C10 with a key configured: a body that is not JSON is answered with 500. *)
Lemma relay_malformed_and_empty_body_witness :
  method (Request "POST" "/create-payment-intent" "amount=5") = "POST"
  ∧ JSON_parse sample_runtime "amount=5" = inl (Some "Unexpected token in JSON")
  ∧ status (api_handler sample_runtime configured
              (Request "POST" "/create-payment-intent" "amount=5")).1 = 500
  ∧ (api_handler sample_runtime configured
       (Request "POST" "/create-payment-intent" "amount=5")).2 = [].
Proof.
  destruct (relay_malformed_and_empty_body sample_runtime configured
              (Request "POST" "/create-payment-intent" "amount=5") eq_refl) as (Hbad & _).
  destruct (Hbad (Some "Unexpected token in JSON")) as (H500 & Hcalls & _).
  - discriminate.
  - reflexivity.
  - split; [reflexivity|]. split; [reflexivity|]. split; [exact H500 | exact Hcalls].
Defined.

End relay_instances.

(** * Further properties *)

(** ** The status helpers *)

Lemma canCancel_guard s :
  canCancel s = true
  ↔ cancel_blocked (status_lc s) = false ∧ status_lc s ≠ "canceled".
Proof.
  unfold canCancel, cancel_blocked. generalize (status_lc s). intros x.
  destruct (String.eqb_spec x "shipping") as [->|?]; [split; [done|intros [? _]; done]|].
  destruct (String.eqb_spec x "delivered") as [->|?]; [split; [done|intros [? _]; done]|].
  destruct (String.eqb_spec x "cancelled") as [->|?]; [split; [done|intros [? _]; done]|].
  destruct (String.eqb_spec x "canceled") as [->|?]; [split; [done|intros [_ ?]; done]|].
  done.
Qed.

(** Whenever the modal offers the Cancel button for an order, a confirmed
    click is not rejected by [cancelOrder]: the order ends up [cancelled]. *)
Theorem canCancel_then_cancelOrder_proceeds st oid ord :
  orders st !! oid = Some ord →
  canCancel (o_status ord) = true →
  (cancelOrder st (Some oid) true).1
    = Some "Order cancelled and stock restored (if applicable)"
  ∧ o_status <$> orders (cancelOrder st (Some oid) true).2 !! oid = Some (Some "cancelled").
Proof.
  intros Hord [Hb _]%canCancel_guard.
  rewrite cancelOrder_proceeds by (by rewrite Hord).
  split; [done|]. cbn [snd].
  destruct (restore_stock_frame oid
              (set_orders (alter (with_status (Some "cancelled")) oid) st)) as (-> & _).
  cbn. by rewrite lookup_alter_eq, Hord.
Qed.

(** The customer's guard rejects exactly the statuses that lock the admin's
    buttons, and [shipping]. *)
Theorem cancel_blocked_iff_locked_or_shipping s :
  cancel_blocked (status_lc s) = true ↔ isLocked s = true ∨ status_lc s = "shipping".
Proof.
  unfold cancel_blocked, isLocked. generalize (status_lc s). intros x.
  destruct (String.eqb_spec x "cancelled") as [->|?]; [split; [by left|done]|].
  destruct (String.eqb_spec x "delivered") as [->|?]; [split; [by left|done]|].
  destruct (String.eqb_spec x "shipping") as [->|?]; [split; [by right|done]|].
  split; [done|]. intros [?|?]; done.
Qed.

Lemma in_group_indicator s :
  (Nat.b2n (in_group "processing" s) + Nat.b2n (in_group "shipping" s)
   + Nat.b2n (in_group "cancelled" s) + Nat.b2n (in_group "delivered" s)
   = Nat.b2n (known_status s))%nat.
Proof.
  unfold in_group, known_status. cbn [String.eqb Ascii.eqb Bool.eqb].
  generalize (status_lc s). intros x.
  destruct (String.eqb_spec x "processing") as [->|?]; [done|].
  destruct (String.eqb_spec x "pending") as [->|?]; [done|].
  destruct (String.eqb_spec x "shipping") as [->|?]; [done|].
  destruct (String.eqb_spec x "shipped") as [->|?]; [done|].
  destruct (String.eqb_spec x "cancelled") as [->|?]; [done|].
  destruct (String.eqb_spec x "canceled") as [->|?]; [done|].
  destruct (String.eqb_spec x "delivered") as [->|?]; [done|].
  destruct (String.eqb_spec x "successful") as [->|?]; [done|].
  destruct (String.eqb_spec x "success") as [->|?]; [done|].
  destruct (String.eqb_spec x "completed") as [->|?]; done.
Qed.

(** The four headings of the orders modal never list an order twice: their
    counts add up to the number of orders whose status is one of the ten known
    spellings.  An order with any other status is shown under no heading. *)
Theorem group_counts_partition (os : list order) :
  (group_count "processing" os + group_count "shipping" os
   + group_count "cancelled" os + group_count "delivered" os
   = length (List.filter (λ o, known_status (o_status o)) os))%nat
  ∧ (∀ o, o ∈ os → known_status (o_status o) = false →
       ∀ stKey, o ∉ List.filter (λ o, in_group stKey (o_status o)) os).
Proof.
  split.
  - unfold group_count. induction os as [|o os IH]; [done|]. cbn [List.filter].
    pose proof (in_group_indicator (o_status o)) as Hi.
    destruct (in_group "processing" (o_status o)), (in_group "shipping" (o_status o)),
      (in_group "cancelled" (o_status o)), (in_group "delivered" (o_status o)),
      (known_status (o_status o)); cbn in Hi; try discriminate; cbn [length]; lia.
  - intros o _ Hk stKey Hin. apply list_elem_of_In, filter_In in Hin as [_ Hg].
    pose proof (in_group_indicator (o_status o)) as Hi. rewrite Hk in Hi.
    revert Hg. unfold in_group.
    destruct (String.eqb stKey "processing") eqn:E1.
    { intros Hg. change (in_group "processing" (o_status o) = true) in Hg.
      rewrite Hg in Hi. cbn in Hi. lia. }
    destruct (String.eqb stKey "shipping") eqn:E2.
    { intros Hg. change (in_group "shipping" (o_status o) = true) in Hg.
      rewrite Hg in Hi. cbn in Hi. lia. }
    destruct (String.eqb stKey "cancelled") eqn:E3.
    { intros Hg. change (in_group "cancelled" (o_status o) = true) in Hg.
      rewrite Hg in Hi. cbn in Hi. lia. }
    destruct (String.eqb stKey "delivered") eqn:E4; [|done].
    intros Hg. change (in_group "delivered" (o_status o) = true) in Hg.
    rewrite Hg in Hi. cbn in Hi. lia.
Qed.

(** The stepper agrees with the headings: step 1 is the shipping group, step 2
    the delivered group, the cancelled mark the cancelled group, and an order
    of the processing group is at step 0. *)
Theorem statusStepIndex_matches_group s :
  (statusStepIndex s = 1 ↔ in_group "shipping" s = true)
  ∧ (statusStepIndex s = 2 ↔ in_group "delivered" s = true)
  ∧ (statusStepIndex s = -1 ↔ in_group "cancelled" s = true)
  ∧ (in_group "processing" s = true → statusStepIndex s = 0).
Proof.
  unfold statusStepIndex, in_group, status_lc, str_or.
  cbn [String.eqb Ascii.eqb Bool.eqb].
  destruct s as [str|]; [|by cbn].
  destruct (String.eqb_spec str "") as [->|_]; [by cbn|].
  generalize (toLowerCase str). intros x.
  destruct (String.eqb_spec x "processing") as [->|?]; [by cbn|].
  destruct (String.eqb_spec x "pending") as [->|?]; [by cbn|].
  destruct (String.eqb_spec x "shipping") as [->|?]; [by cbn|].
  destruct (String.eqb_spec x "shipped") as [->|?]; [by cbn|].
  destruct (String.eqb_spec x "delivered") as [->|?]; [by cbn|].
  destruct (String.eqb_spec x "successful") as [->|?]; [by cbn|].
  destruct (String.eqb_spec x "success") as [->|?]; [by cbn|].
  destruct (String.eqb_spec x "completed") as [->|?]; [by cbn|].
  destruct (String.eqb_spec x "cancelled") as [->|?]; [by cbn|].
  destruct (String.eqb_spec x "canceled") as [->|?]; by cbn.
Qed.

(** ** The relay beyond validation *)

Section relay_more.
Import Relay.




Lemma on_end_shape rt catch after body :
  (∀ err, status (catch err) = 500 ∧ headers (catch err) = defaultHeaders) →
  headers (on_end rt catch after body).1 = defaultHeaders
  ∧ (length (on_end rt catch after body).2 ≤ 1)%nat
  ∧ (status (on_end rt catch after body).1 = 200 → (on_end rt catch after body).2 ≠ [])
  ∧ status (on_end rt catch after body).1 ∈ [200; 400; 500].
Proof.
  intros Hc.
  assert (Hcatch : ∀ err (calls : list intent_request), (length calls ≤ 1)%nat →
            headers (catch err, calls).1 = defaultHeaders
            ∧ (length (catch err, calls).2 ≤ 1)%nat
            ∧ (status (catch err, calls).1 = 200 → (catch err, calls).2 ≠ [])
            ∧ status (catch err, calls).1 ∈ [200; 400; 500]).
  { intros err calls Hl. destruct (Hc err) as [Hs Hh]. cbn [fst snd]. rewrite Hs, Hh.
    split; [done|]. split; [done|]. split; [done|]. repeat constructor. }
  unfold on_end.
  destruct (JSON_parse rt _) as [err|payload]; [apply Hcatch; cbn; lia|].
  destruct (get_prop payload "amount") as [err|a]; [apply Hcatch; cbn; lia|].
  destruct (invalid_amount _).
  { cbn. split; [done|]. split; [lia|]. split; [done|]. repeat constructor. }
  destruct (paymentIntents_create rt _) as [err|pi]; [apply Hcatch; cbn; lia|].
  destruct (after pi) as [err|_]; [apply Hcatch; cbn; lia|].
  cbn. split; [done|]. split; [lia|]. split; [done|]. repeat constructor.
Qed.

(** Neither handler ever asks the processor more than once for a request, and
    never for a request that is not a POST; the serverless handler sends a 200
    only after the processor was asked.  Every response of the serverless
    handler carries the CORS headers, and the statuses it sends are 200, 204,
    400, 404 and 500. *)
Theorem relay_calls_and_headers rt e req :
  headers (api_handler rt e req).1 = defaultHeaders
  ∧ status (api_handler rt e req).1 ∈ [200; 204; 400; 404; 500]
  ∧ (length (api_handler rt e req).2 ≤ 1)%nat
  ∧ (length (server_handler rt req).2 ≤ 1)%nat
  ∧ ((api_handler rt e req).2 ≠ [] → method req = "POST")
  ∧ ((server_handler rt req).2 ≠ [] →
       method req = "POST" ∧ url req = "/create-payment-intent")
  ∧ (status (api_handler rt e req).1 = 200 → (api_handler rt e req).2 ≠ []).
Proof.
  assert (Ha : ∀ err, status (api_catch err) = 500 ∧ headers (api_catch err) = defaultHeaders)
    by done.
  assert (Hs : ∀ err, status (server_catch err) = 500
                      ∧ headers (server_catch err) = defaultHeaders) by done.
  destruct (on_end_shape rt api_catch api_after_create (req_body req) Ha)
    as (A1 & A2 & A3 & A4).
  destruct (on_end_shape rt server_catch server_after_create (req_body req) Hs)
    as (S1 & S2 & S3 & S4).
  assert (Hsrv : (length (server_handler rt req).2 ≤ 1)%nat
                 ∧ ((server_handler rt req).2 ≠ [] →
                      method req = "POST" ∧ url req = "/create-payment-intent")).
  { unfold server_handler.
    destruct (String.eqb (method req) "OPTIONS"); [cbn; split; [lia|done]|].
    destruct (String.eqb_spec (method req) "POST") as [Hp|Hp];
      destruct (String.eqb_spec (url req) "/create-payment-intent") as [Hu|Hu];
      cbn [andb].
    - done.
    - destruct (_ && _); cbn; (split; [lia|done]).
    - destruct (_ && _); cbn; (split; [lia|done]).
    - destruct (_ && _); cbn; (split; [lia|done]). }
  destruct Hsrv as [Hs1 Hs2].
  assert (Hapi : headers (api_handler rt e req).1 = defaultHeaders
                 ∧ status (api_handler rt e req).1 ∈ [200; 204; 400; 404; 500]
                 ∧ (length (api_handler rt e req).2 ≤ 1)%nat
                 ∧ ((api_handler rt e req).2 ≠ [] → method req = "POST")
                 ∧ (status (api_handler rt e req).1 = 200 → (api_handler rt e req).2 ≠ [])).
  { unfold api_handler.
    destruct (String.eqb_spec (method req) "OPTIONS") as [Ho|Ho].
    { cbn. split; [done|]. split; [repeat constructor|]. split; [lia|]. done. }
    destruct (String.eqb_spec (method req) "POST") as [Hp|Hp]; cbn [negb].
    - destruct (String.eqb (stripeSecret e) "").
      + cbn. split; [done|]. split; [repeat constructor|]. split; [lia|]. done.
      + split; [done|]. split; [|done].
        apply elem_of_cons in A4 as [->|A4]; [repeat constructor|].
        apply elem_of_cons in A4 as [->|A4]; [repeat constructor|].
        apply list_elem_of_singleton in A4 as ->. repeat constructor.
    - cbn. split; [done|]. split; [repeat constructor|]. split; [lia|]. done. }
  destruct Hapi as (H1 & H2 & H3 & H4 & H5). done.
Qed.

Lemma catches_agree err :
  (∃ m, err = Some m ∧ m ≠ "") → api_catch err = server_catch err.
Proof.
  intros (m & -> & Hm). unfold api_catch, server_catch, error_obj, str_or.
  apply String.eqb_neq in Hm. by rewrite Hm.
Qed.

(** With a processor key configured, the serverless handler and the
    standalone server give the same answer and make the same processor request
    for every POST to [/create-payment-intent], as long as the errors thrown
    carry a message and the processor's replies carry a [metadata] object. *)
Theorem relay_handlers_agree rt e req :
  errors_have_messages rt →
  replies_have_metadata rt →
  method req = "POST" →
  url req = "/create-payment-intent" →
  stripeSecret e ≠ "" →
  api_handler rt e req = server_handler rt req.
Proof.
  intros [Hparse Hcreate] Hmeta Hm Hu Hs.
  rewrite api_handler_post, server_handler_post by done.
  apply String.eqb_neq in Hs. rewrite Hs. unfold on_end.
  destruct (JSON_parse rt _) as [err|payload] eqn:Hp.
  { f_equal. apply catches_agree. by eapply Hparse. }
  destruct (get_prop payload "amount") as [err|a] eqn:Ha.
  { f_equal. apply catches_agree. destruct payload; try discriminate.
    injection Ha as <-. by eexists. }
  destruct (invalid_amount _); [done|].
  destruct (paymentIntents_create rt _) as [err|pi] eqn:Hc.
  { f_equal. apply catches_agree. by eapply Hcreate. }
  destruct (Hmeta _ _ Hc) as (m & Hpm & Hnn).
  unfold api_after_create, server_after_create. rewrite Hpm. by destruct m.
Qed.

End relay_more.

(** ** How the lifecycle handlers compose *)

Lemma placeOrder_inv st user cartId cart o :
  ((placeOrder st user cartId cart o).2 = st
   ∧ (placeOrder st user cartId cart o).1 ≠ placed_msg)
  ∨ (∃ uid, user = Some uid ∧ cart ≠ []
            ∧ check_stock (product_variants st) cart = CheckOk).
Proof.
  unfold placeOrder. destruct user as [uid|]; [|by left].
  destruct cart as [|c cart]; [by left|].
  destruct (check_stock (product_variants st) (c :: cart)) eqn:Hck.
  - right. by exists uid.
  - by left.
  - left. split; [done|]. unfold not_enough_msg, placed_msg. intros [=].
Qed.

Lemma restore_stock_set_orders oid f st :
  product_variants (restore_stock oid (set_orders f st)) = product_variants (restore_stock oid st)
  ∧ products (restore_stock oid (set_orders f st)) = products (restore_stock oid st).
Proof. by rewrite !restore_stock_unfold. Qed.

(** A second confirmed cancel of an order that exists is always refused and
    changes nothing, whatever the first one did. *)
Theorem cancelOrder_twice st oid ord :
  orders st !! oid = Some ord →
  cancelOrder (cancelOrder st (Some oid) true).2 (Some oid) true
  = (Some "This order cannot be cancelled", (cancelOrder st (Some oid) true).2).
Proof.
  intros Hord.
  destruct (cancel_blocked (status_lc (orders st !! oid ≫= o_status))) eqn:Hb.
  - assert (H1 : cancelOrder st (Some oid) true
                 = (Some "This order cannot be cancelled", st)).
    { unfold cancelOrder. cbn [negb]. by rewrite Hb. }
    rewrite H1. cbn [snd]. exact H1.
  - rewrite (cancelOrder_proceeds st oid Hb). cbn [snd].
    unfold cancelOrder. cbn [negb].
    destruct (restore_stock_frame oid
                (set_orders (alter (with_status (Some "cancelled")) oid) st)) as (-> & _).
    cbn [orders set_orders]. rewrite lookup_alter_eq, Hord. done.
Qed.

Lemma updateStatus_from_cancelled st oid ord ns :
  orders st !! oid = Some ord →
  status_lc (o_status ord) = "cancelled" →
  product_variants (updateStatus st oid ns).2 = product_variants st
  ∧ products (updateStatus st oid ns).2 = products st.
Proof.
  intros Hord Hc. unfold updateStatus. rewrite Hord, Hc. cbn [snd].
  unfold restock_on_cancel. cbn [String.eqb Ascii.eqb Bool.eqb orb]. by rewrite andb_false_r.
Qed.

(** Once the admin has set an order to cancelled, the status update that
    comes next on it restocks nothing, whatever status it sets: the previous
    status it finds is [cancelled]. *)
Theorem updateStatus_after_cancel_never_restocks st oid ord ns1 ns2 :
  orders st !! oid = Some ord →
  status_lc ns1 = "cancelled" →
  product_variants (updateStatus (updateStatus st oid ns1).2 oid ns2).2
    = product_variants (updateStatus st oid ns1).2
  ∧ products (updateStatus (updateStatus st oid ns1).2 oid ns2).2
    = products (updateStatus st oid ns1).2.
Proof.
  intros Hord Hc.
  assert (Ho : orders (updateStatus st oid ns1).2 !! oid = Some (with_status ns1 ord)).
  { unfold updateStatus. rewrite Hord. cbn [snd].
    destruct (restock_on_cancel _ _).
    - destruct (restore_stock_frame oid (set_orders (alter (with_status ns1) oid) st))
        as (-> & _). cbn. by rewrite lookup_alter_eq, Hord.
    - cbn. by rewrite lookup_alter_eq, Hord. }
  by apply (updateStatus_from_cancelled _ _ (with_status ns1 ord)).
Qed.

Lemma updateStatus_order st oid ord ns :
  orders st !! oid = Some ord →
  orders (updateStatus st oid ns).2 !! oid = Some (with_status ns ord)
  ∧ order_items (updateStatus st oid ns).2 = order_items st.
Proof.
  intros Hord. unfold updateStatus. rewrite Hord. cbn [snd].
  destruct (restock_on_cancel _ _).
  - destruct (restore_stock_frame oid (set_orders (alter (with_status ns) oid) st))
      as (-> & -> & _). cbn. by rewrite lookup_alter_eq, Hord.
  - cbn. by rewrite lookup_alter_eq, Hord.
Qed.

Lemma updateStatus_restock_variants st oid ord ns k :
  orders st !! oid = Some ord →
  status_lc ns = "cancelled" →
  status_lc (o_status ord) = "pending" ∨ status_lc (o_status ord) = "processing" →
  product_variants (updateStatus st oid ns).2 !! k
  = (λ v, set_stock (stock_after_return oid k (order_items st) (v_stock v)) v)
      <$> product_variants st !! k.
Proof.
  intros Hord Hc Hp. unfold updateStatus. rewrite Hord. cbn [snd].
  rewrite (proj2 (restock_on_cancel_true _ _)) by done.
  apply restore_stock_spec.
Qed.

(** An order the admin cancelled, set back to pending or processing and
    cancelled once more is restocked twice: the second cancellation finds an
    early status again and adds the quantities of the order's items to the
    variants a second time. *)
Theorem updateStatus_reopen_then_cancel_restocks_again st oid ord ns1 ns2 ns3 k v :
  orders st !! oid = Some ord →
  status_lc (o_status ord) = "pending" ∨ status_lc (o_status ord) = "processing" →
  status_lc ns1 = "cancelled" →
  status_lc ns2 = "pending" ∨ status_lc ns2 = "processing" →
  status_lc ns3 = "cancelled" →
  product_variants st !! k = Some v →
  let st1 := (updateStatus st oid ns1).2 in
  let st2 := (updateStatus st1 oid ns2).2 in
  let st3 := (updateStatus st2 oid ns3).2 in
  product_variants st1 !! k
  = Some (set_stock (stock_after_return oid k (order_items st) (v_stock v)) v)
  ∧ product_variants st2 = product_variants st1
  ∧ product_variants st3 !! k
    = Some (set_stock (stock_after_return oid k (order_items st)
                         (stock_after_return oid k (order_items st) (v_stock v))) v).
Proof.
  intros Hord Hearly Hc1 Hre Hc3 Hv. cbv zeta.
  destruct (updateStatus_order st oid ord ns1 Hord) as [Ho1 Hi1].
  destruct (updateStatus_order _ oid _ ns2 Ho1) as [Ho2 Hi2].
  assert (H1 : product_variants (updateStatus st oid ns1).2 !! k
               = Some (set_stock (stock_after_return oid k (order_items st) (v_stock v)) v)).
  { rewrite (updateStatus_restock_variants st oid ord) by done. by rewrite Hv. }
  assert (H2 : product_variants (updateStatus (updateStatus st oid ns1).2 oid ns2).2
               = product_variants (updateStatus st oid ns1).2).
  { by apply (updateStatus_from_cancelled _ _ (with_status ns1 ord)). }
  split; [exact H1|]. split; [exact H2|].
  rewrite (updateStatus_restock_variants _ oid (with_status ns2 (with_status ns1 ord)))
    by done.
  rewrite H2, H1, Hi2, Hi1. done.
Qed.

(** Deleting an order has the stock effect of the admin cancelling it: both
    restock exactly when the order was [pending] or [processing], by the same
    amounts; the deleted order is gone from the table. *)
Theorem deleteOrder_restocks_like_cancel st oid ord :
  orders st !! oid = Some ord →
  product_variants (deleteOrder st oid).2
    = product_variants (updateStatus st oid (Some "cancelled")).2
  ∧ products (deleteOrder st oid).2 = products (updateStatus st oid (Some "cancelled")).2
  ∧ orders (deleteOrder st oid).2 !! oid = None.
Proof.
  intros Hord. unfold deleteOrder, updateStatus. rewrite Hord. cbn [snd mbind option_bind].
  rewrite bool_decide_eq_true_2 by (by eexists). cbn [andb].
  unfold restock_on_cancel.
  change (String.eqb (status_lc (Some "cancelled")) "cancelled") with true. cbn [andb].
  destruct (_ || _).
  - destruct (restore_stock_set_orders oid (alter (with_status (Some "cancelled")) oid) st)
      as [-> ->].
    split; [done|]. split; [done|]. cbn. apply lookup_delete_eq.
  - split; [done|]. split; [done|]. cbn. apply lookup_delete_eq.
Qed.

(** *** Checkout followed by cancellation *)

Lemma filter_key_absent {A} (key : A → option id) (l : list A) k :
  k ∉ omap key l → filter (λ a, key a = Some k) l = [].
Proof.
  induction l as [|a l IH]; [done|]. cbn [omap list_omap].
  destruct (key a) as [k'|] eqn:Hk.
  - intros Hn. apply not_elem_of_cons in Hn as [Hne Hn].
    rewrite filter_cons_False by congruence. by apply IH.
  - intros Hn. rewrite filter_cons_False by congruence. by apply IH.
Qed.

Lemma filter_key_present {A} (key : A → option id) (l : list A) k :
  k ∈ omap key l → filter (λ a, key a = Some k) l ≠ [].
Proof.
  intros (a & Ha & Hk)%list_elem_of_omap Hnil.
  assert (a ∈ filter (λ a, key a = Some k) l) as Hin by (by apply list_elem_of_filter).
  rewrite Hnil in Hin. by apply elem_of_nil in Hin.
Qed.

Lemma filter_key_nodup {A} (key : A → option id) (l : list A) k :
  NoDup (omap key l) →
  filter (λ a, key a = Some k) l = []
  ∨ ∃ a, a ∈ l ∧ key a = Some k ∧ filter (λ a, key a = Some k) l = [a].
Proof.
  induction l as [|a l IH]; [by left|]. cbn [omap list_omap].
  destruct (key a) as [k'|] eqn:Hk.
  - intros [Hnin Hnd]%NoDup_cons. destruct (decide (k' = k)) as [->|Hne].
    + right. exists a. split; [left|]. split; [done|].
      rewrite filter_cons_True by done. by rewrite filter_key_absent.
    + rewrite filter_cons_False by congruence.
      destruct (IH Hnd) as [?|(b & ? & ? & ?)]; [by left|].
      right. exists b. split; [by right|done].
  - intros Hnd. rewrite filter_cons_False by congruence.
    destruct (IH Hnd) as [?|(b & ? & ? & ?)]; [by left|].
    right. exists b. split; [by right|done].
Qed.

Lemma filter_snapshot_item oid cart k :
  filter (λ it, oi_product_variant_id it = Some k) (map (snapshot_item oid) cart)
  = map (snapshot_item oid) (filter (λ ci, ci_product_variant_id ci = Some k) cart).
Proof.
  induction cart as [|c cart IH]; [done|]. cbn [map].
  destruct (decide (ci_product_variant_id c = Some k)) as [Hk|Hk].
  - rewrite !filter_cons_True by done. cbn [map]. by rewrite IH.
  - rewrite !filter_cons_False by done. done.
Qed.

Lemma items_of_after_checkout oid items cart :
  (∀ it, it ∈ items → oi_order_id it ≠ oid) →
  items_of oid (items ++ map (snapshot_item oid) cart) = map (snapshot_item oid) cart.
Proof.
  intros Hfresh. unfold items_of. rewrite filter_app.
  assert (filter (λ it, oi_order_id it = oid) items = []) as ->.
  { induction items as [|it items IH]; [done|].
    rewrite filter_cons_False by (apply Hfresh; left).
    apply IH. intros; apply Hfresh; by right. }
  cbn [app]. induction cart as [|c cart IH]; [done|]. cbn [map].
  rewrite filter_cons_True by done. by rewrite IH.
Qed.

(** The restock block run on the store a checkout left, for the order it
    created: every variant is back at the stock it had. *)
Lemma restore_after_deduct st stX cart oid k v :
  check_stock (product_variants st) cart = CheckOk →
  NoDup (line_keys cart) →
  product_variants stX = (deduct_all (product_variants st) cart).1 →
  items_of oid (order_items stX) = map (snapshot_item oid) cart →
  product_variants st !! k = Some v →
  ∃ v', product_variants (restore_stock oid stX) !! k = Some v'
        ∧ num_or 0 (v_stock v') = num_or 0 (v_stock v)
        ∧ set_stock (v_stock v) v' = v.
Proof.
  intros Hck Hnd Hvs Hitems Hv.
  rewrite restore_stock_variants, Hvs, Hitems. unfold deduct_all.
  rewrite deduct_step_stock_step, stock_loop_lookup, Hv. cbn [fmap option_fmap option_map].
  eexists. split; [done|]. cbn [v_stock set_stock v_product_id v_color v_size v_img_url].
  unfold replay. rewrite filter_snapshot_item.
  destruct (filter_key_nodup ci_product_variant_id cart k Hnd) as [->|(ci & Hci & Hk & ->)].
  - cbn. split; [done|]. by destruct v.
  - cbn [map fold_left]. rewrite num_or_0_Some. unfold add_back, floor_sub.
    rewrite num_or_0_Some. cbn [snapshot_item oi_quantity].
    apply check_stock_ok with (ci := ci) in Hck as (v' & Hv' & Hle); [|done].
    rewrite Hk in Hv'. cbn in Hv'. rewrite Hv in Hv'. injection Hv' as <-.
    split; [lia|]. by destruct v.
Qed.

(** A checkout whose lines name distinct variants, followed by the
    cancellation of the order it created (by the customer, or by the admin's
    status update), puts every variant back at the stock it had before the
    checkout. *)
Theorem checkout_then_cancel_restores_stock st uid cartId cart o st2 k v :
  cart ≠ [] →
  check_stock (product_variants st) cart = CheckOk →
  NoDup (line_keys cart) →
  (∀ it, it ∈ order_items st → oi_order_id it ≠ new_id (orders st)) →
  st2 = (cancelOrder (placeOrder st (Some uid) cartId cart o).2
           (Some (new_id (orders st))) true).2
  ∨ st2 = (updateStatus (placeOrder st (Some uid) cartId cart o).2
             (new_id (orders st)) (Some "Cancelled")).2 →
  product_variants st !! k = Some v →
  ∃ v', product_variants st2 !! k = Some v'
        ∧ num_or 0 (v_stock v') = num_or 0 (v_stock v)
        ∧ set_stock (v_stock v) v' = v.
Proof.
  intros Hne Hck Hnd Hfresh Hst2 Hv.
  rewrite placeOrder_ok in Hst2 by done. cbn [snd] in Hst2. cbv zeta in Hst2.
  set (oid := new_id (orders st)) in *.
  set (st1 := Store _ _ _ _ _ _ _) in Hst2.
  assert (Ho : orders st1 !! oid
               = Some (Order uid (order_total cart) (Some "processing")
                         (payment_status_of (opt_paymentDetails o)) (opt_payment_method o)
                         (shipping_snapshot (user_addresses st) o))).
  { subst st1. cbn [orders]. apply lookup_insert_eq. }
  assert (Hrestore : ∀ f, ∃ v',
             product_variants (restore_stock oid (set_orders f st1)) !! k = Some v'
             ∧ num_or 0 (v_stock v') = num_or 0 (v_stock v)
             ∧ set_stock (v_stock v) v' = v).
  { intros f. apply (restore_after_deduct st _ cart); try done.
    subst st1. cbn [order_items set_orders]. by apply items_of_after_checkout. }
  destruct Hst2 as [->| ->].
  - rewrite cancelOrder_proceeds by (by rewrite Ho). apply Hrestore.
  - unfold updateStatus. rewrite Ho. cbn [snd o_status].
    change (restock_on_cancel (status_lc (Some "processing")) (status_lc (Some "Cancelled")))
      with true. cbn iota. apply Hrestore.
Qed.

(** The re-check looks at one line at a time.  Two lines for the same variant
    that each fit the stock but together exceed it pass it; the checkout
    succeeds, records both lines and leaves the variant at zero. *)
Theorem checkout_duplicate_lines_oversell st uid cartId o l1 l2 k v :
  ci_product_variant_id l1 = Some k →
  ci_product_variant_id l2 = Some k →
  product_variants st !! k = Some v →
  num_or 0 (ci_quantity l1) ≤ num_or 0 (v_stock v) →
  num_or 0 (ci_quantity l2) ≤ num_or 0 (v_stock v) →
  num_or 0 (v_stock v) < num_or 0 (ci_quantity l1) + num_or 0 (ci_quantity l2) →
  (placeOrder st (Some uid) cartId [l1; l2] o).1 = placed_msg
  ∧ v_stock <$> product_variants (placeOrder st (Some uid) cartId [l1; l2] o).2 !! k
    = Some (Some 0)
  ∧ order_items (placeOrder st (Some uid) cartId [l1; l2] o).2
    = (order_items st
       ++ [snapshot_item (new_id (orders st)) l1; snapshot_item (new_id (orders st)) l2])%list.
Proof.
  intros Hk1 Hk2 Hv Hq1 Hq2 Hsum.
  assert (Hck : check_stock (product_variants st) [l1; l2] = CheckOk).
  { apply check_stock_ok. intros ci Hci. exists v.
    apply elem_of_cons in Hci as [->|Hci]; [by rewrite Hk1|].
    apply list_elem_of_singleton in Hci as ->. by rewrite Hk2. }
  rewrite placeOrder_ok by done. cbn [fst snd]. split; [done|]. split; [|done].
  cbn [product_variants]. unfold deduct_all.
  rewrite deduct_step_stock_step, stock_loop_lookup, Hv. cbn [fmap option_fmap option_map].
  unfold replay. rewrite !filter_cons_True by done. rewrite filter_nil.
  cbn [fold_left v_stock set_stock]. unfold floor_sub. rewrite num_or_0_Some.
  do 2 f_equal. lia.
Qed.

Lemma fold_floor_sub_nonneg (l : list cart_item) (s : option Z) :
  (l = [] → 0 ≤ num_or 0 s) →
  0 ≤ num_or 0 (fold_left (λ s a, Some (floor_sub s a)) l s).
Proof.
  revert s. induction l as [|a l IH]; intros s Hs; [by apply Hs|].
  cbn [fold_left]. apply IH. intros _. rewrite num_or_0_Some. unfold floor_sub. lia.
Qed.

(** A checkout never drives a stock below zero: it keeps every stock that was
    non-negative so, and a variant it sold from ends non-negative whatever it
    held before. *)
Theorem placeOrder_keeps_stock_nonneg st user cartId cart o :
  (stock_nonneg (product_variants st) →
     stock_nonneg (product_variants (placeOrder st user cartId cart o).2))
  ∧ ((placeOrder st user cartId cart o).1 = placed_msg →
     ∀ k v', k ∈ line_keys cart →
       product_variants (placeOrder st user cartId cart o).2 !! k = Some v' →
       0 ≤ num_or 0 (v_stock v')).
Proof.
  destruct (placeOrder_inv st user cartId cart o) as [[Hst Hmsg]|(uid & -> & Hne & Hck)].
  { rewrite Hst. split; [done|]. by intros ?. }
  rewrite placeOrder_ok by done. cbn [fst snd product_variants]. unfold deduct_all.
  rewrite deduct_step_stock_step. split.
  - intros Hnn k v'. rewrite stock_loop_lookup.
    destruct (product_variants st !! k) as [v|] eqn:Hv; [|done].
    intros [= <-]. cbn [v_stock set_stock]. apply fold_floor_sub_nonneg.
    intros _. by eapply Hnn.
  - intros _ k v' Hin. rewrite stock_loop_lookup.
    destruct (product_variants st !! k) as [v|] eqn:Hv; [|done].
    intros [= <-]. cbn [v_stock set_stock]. apply fold_floor_sub_nonneg.
    intros Hnil. by apply (filter_key_present ci_product_variant_id cart k) in Hin.
Qed.

(** ** The aggregate-stock invariant *)

Lemma sum_variant_stock_insert vs k v pid :
  vs !! k = None →
  sum_variant_stock (<[k := v]> vs) pid = sum_variant_stock vs pid + contribution pid v.
Proof.
  intros Hk. unfold sum_variant_stock, contribution.
  rewrite map_fold_insert_L; [by case_bool_decide; lia| |done].
  intros j1 j2 z1 z2 y _ _ _. repeat case_bool_decide; lia.
Qed.

Lemma sum_variant_stock_alter vs k v g pid :
  vs !! k = Some v →
  sum_variant_stock (alter g k vs) pid
  = sum_variant_stock vs pid - contribution pid v + contribution pid (g v).
Proof.
  intros Hv.
  assert (alter g k vs = <[k := g v]> (delete k vs)) as ->.
  { apply map_eq. intros j. destruct (decide (k = j)) as [->|Hne].
    - by rewrite lookup_alter_eq, lookup_insert_eq, Hv.
    - by rewrite lookup_alter_ne, lookup_insert_ne, lookup_delete_ne. }
  rewrite <- (insert_delete_id vs k v Hv) at 2.
  rewrite !sum_variant_stock_insert by apply lookup_delete_eq. lia.
Qed.

Lemma sum_variant_stock_none vs pid :
  (∀ k v, vs !! k = Some v → v_product_id v ≠ pid) → sum_variant_stock vs pid = 0.
Proof.
  induction vs as [|k v vs Hk IH] using map_ind; intros Hall.
  - unfold sum_variant_stock. by rewrite map_fold_empty.
  - rewrite sum_variant_stock_insert by done. rewrite IH.
    + unfold contribution. rewrite bool_decide_eq_false_2; [done|].
      apply (Hall k). apply lookup_insert_eq.
    + intros j w Hj. apply (Hall j). rewrite lookup_insert_ne; [done|]. congruence.
Qed.

Section stock_loop_sums.
Context {A : Type} (key : A → option id) (upd : option Z → A → Z).

(** A stock loop leaves alone the sum of every product it does not touch. *)
Lemma stock_loop_sum_other (l : list A) (vs : gmap id variant) (pids : list id) pid :
  ¬ affected key vs l pid →
  sum_variant_stock (fold_left (stock_step key upd) l (vs, pids)).1 pid
  = sum_variant_stock vs pid.
Proof.
  revert vs pids. induction l as [|a l IH]; intros vs pids Hna; [done|]. cbn [fold_left].
  destruct (key a) as [k|] eqn:Hk.
  - destruct (vs !! k) as [v|] eqn:Hv.
    + rewrite (stock_step_hit _ _ _ _ k v) by done. cbn [fst snd].
      assert (Hown : v_product_id v ≠ pid).
      { intros Heq. apply Hna. exists a. split; [left|].
        by rewrite Hk, owner_of_Some, Hv, <- Heq. }
      rewrite IH.
      * rewrite (sum_variant_stock_alter _ _ v) by done. unfold contribution.
        cbn [v_product_id with_stock]. rewrite !bool_decide_eq_false_2 by done. lia.
      * intros Ha. apply Hna.
        apply (affected_cons key vs (alter (with_stock (upd (v_stock v) a)) k vs));
          [intros; apply owner_of_alter_stock | by right].
    + rewrite (stock_step_miss _ _ _ _ k) by done. apply IH.
      intros Ha. apply Hna. apply (affected_cons key vs vs); [done | by right].
  - rewrite stock_step_none by done. apply IH.
    intros Ha. apply Hna. apply (affected_cons key vs vs); [done | by right].
Qed.

(** A stock loop followed by the recomputation of the products it touched
    keeps every product's stock equal to the sum over its variants. *)
Lemma stock_block_consistent (l : list A) (vs : gmap id variant) (ps : gmap id product) :
  (∀ pid p, ps !! pid = Some p → p_stock p = Some (sum_variant_stock vs pid)) →
  ∀ pid p,
    recalc_products (fold_left (stock_step key upd) l (vs, [])).1
                    (fold_left (stock_step key upd) l (vs, [])).2 ps !! pid = Some p →
    p_stock p = Some (sum_variant_stock (fold_left (stock_step key upd) l (vs, [])).1 pid).
Proof.
  intros Hinv pid p. rewrite recalc_products_lookup. case_bool_decide as Hin.
  - destruct (ps !! pid) as [p0|]; [|done]. by intros [= <-].
  - intros Hp. rewrite stock_loop_sum_other; [by apply Hinv|].
    intros Ha. apply Hin. apply stock_loop_pids. by right.
Qed.
End stock_loop_sums.

Lemma restore_stock_consistent oid st :
  stock_consistent st → stock_consistent (restore_stock oid st).
Proof.
  intros Hinv pid p. rewrite restore_stock_unfold. cbn [products product_variants].
  rewrite restore_step_stock_step. by apply stock_block_consistent.
Qed.

Lemma placeOrder_consistent st user cartId cart o :
  stock_consistent st → stock_consistent (placeOrder st user cartId cart o).2.
Proof.
  intros Hinv.
  destruct (placeOrder_inv st user cartId cart o) as [[-> _]|(uid & -> & Hne & Hck)]; [done|].
  rewrite placeOrder_ok by done. intros pid p. cbn [snd products product_variants].
  unfold deduct_all. rewrite deduct_step_stock_step. by apply stock_block_consistent.
Qed.

Lemma cancelOrder_consistent st orderId confirmed :
  stock_consistent st → stock_consistent (cancelOrder st orderId confirmed).2.
Proof.
  intros Hinv. unfold cancelOrder. destruct orderId as [oid|]; [|done].
  destruct (negb confirmed); [done|]. destruct (cancel_blocked _); [done|].
  cbn [snd]. by apply restore_stock_consistent.
Qed.

Lemma updateStatus_consistent st oid ns :
  stock_consistent st → stock_consistent (updateStatus st oid ns).2.
Proof.
  intros Hinv. unfold updateStatus. destruct (orders st !! oid); [|done]. cbn [snd].
  destruct (restock_on_cancel _ _); [|done]. by apply restore_stock_consistent.
Qed.

Lemma deleteOrder_consistent st oid :
  stock_consistent st → stock_consistent (deleteOrder st oid).2.
Proof.
  intros Hinv. unfold deleteOrder. cbn [snd].
  destruct (_ && _); [|done].
  intros pid p. apply (restore_stock_consistent oid st Hinv pid p).
Qed.

(** A checkout, whatever its outcome, keeps every product's stock field equal
    to the sum of the stock of its variants. *)
Theorem placeOrder_keeps_stock_consistent st user cartId cart o :
  stock_consistent st → stock_consistent (placeOrder st user cartId cart o).2.
Proof. apply placeOrder_consistent. Qed.

(** Any sequence of checkouts, customer cancellations, admin status updates
    and order deletions keeps every product's stock field equal to the sum of
    the stock of its variants. *)
Theorem lifecycle_keeps_stock_consistent st ops :
  Forall (λ o, lifecycle_op o = true) ops →
  stock_consistent st →
  stock_consistent (run_all st ops).
Proof.
  unfold run_all. intros Hops. revert st.
  induction Hops as [|o ops Ho _ IH]; intros st Hinv; [done|]. cbn [fold_left].
  apply IH. destruct o; try discriminate; cbn [run].
  - by apply placeOrder_consistent.
  - by apply cancelOrder_consistent.
  - by apply updateStatus_consistent.
  - by apply deleteOrder_consistent.
Qed.

(** ** The catalogue handlers *)

Lemma upload_all_rows pid fvs rows :
  upload_all pid fvs = inr rows →
  Forall (λ v, v_product_id v = pid ∧ is_Some (v_stock v)) rows.
Proof.
  revert rows. induction fvs as [|fv fvs IH]; intros rows; cbn [upload_all].
  - intros [= <-]. constructor.
  - destruct (fv_imgFile fv) as [[msg js|url]|]; [done| |];
      (destruct (upload_all pid fvs) as [?|rows'] eqn:Hr; [done|];
       intros [= <-]; constructor; [by split; [|eexists] | by apply IH]).
Qed.

Lemma sum_variant_stock_insert_variants rows vs pid :
  sum_variant_stock (insert_variants rows vs) pid
  = fold_left (λ s v, s + contribution pid v) rows (sum_variant_stock vs pid).
Proof.
  unfold insert_variants. revert vs. induction rows as [|r rows IH]; intros vs; [done|].
  cbn [fold_left]. rewrite IH. by rewrite sum_variant_stock_insert by apply new_id_fresh.
Qed.

Lemma lookup_insert_variants rows (vs : gmap id variant) k v :
  insert_variants rows vs !! k = Some v → vs !! k = Some v ∨ v ∈ rows.
Proof.
  unfold insert_variants. revert vs. induction rows as [|r rows IH]; intros vs; [by left|].
  cbn [fold_left]. intros [[[_ <-]|[_ ?]]%lookup_insert_Some|?]%IH.
  - right. left.
  - by left.
  - right. by right.
Qed.

Lemma fold_contribution_own pid rows a :
  Forall (λ v, v_product_id v = pid ∧ is_Some (v_stock v)) rows →
  fold_left (λ s v, s + contribution pid v) rows a
  = fold_left (λ sum v, sum + default 0 (v_stock v)) rows a.
Proof.
  intros Hrows. revert a. induction Hrows as [|r rows [Hown [n Hn]] _ IH]; intros a; [done|].
  cbn [fold_left]. rewrite IH. do 2 f_equal. unfold contribution.
  rewrite bool_decide_eq_true_2 by done. rewrite Hn. apply num_or_0_Some.
Qed.

Lemma fold_contribution_other pid pid' rows a :
  pid' ≠ pid →
  Forall (λ v, v_product_id v = pid ∧ is_Some (v_stock v)) rows →
  fold_left (λ s v, s + contribution pid' v) rows a = a.
Proof.
  intros Hne Hrows. revert a. induction Hrows as [|r rows [Hown _] _ IH]; intros a; [done|].
  cbn [fold_left]. rewrite IH. unfold contribution.
  rewrite bool_decide_eq_false_2 by congruence. lia.
Qed.

(** Adding a product keeps the store's two invariants: every variant still
    belongs to a product, and every product's stock field, the new one's
    included, is the sum of the stock of its variants. *)
Theorem handleAddProduct_keeps_invariants st f :
  stock_consistent st →
  variants_owned st →
  stock_consistent (handleAddProduct st f).2 ∧ variants_owned (handleAddProduct st f).2.
Proof.
  intros Hinv Hown. unfold handleAddProduct.
  destruct (af_variants f) as [|fv fvs] eqn:Hf; [done|]. rewrite <- Hf.
  destruct (upload_all (new_id (products st)) (af_variants f)) as [msg|rows] eqn:Hup; [done|].
  apply upload_all_rows in Hup. cbn [snd].
  set (new := new_id (products st)) in *.
  assert (Hnew : products st !! new = None) by apply new_id_fresh.
  assert (Hnone : sum_variant_stock (product_variants st) new = 0).
  { apply sum_variant_stock_none. intros k v Hv Heq.
    destruct (Hown k v Hv) as [p Hp]. rewrite Heq in Hp. congruence. }
  split.
  - intros pid p. cbn [products product_variants set_products set_product_variants].
    rewrite sum_variant_stock_insert_variants.
    intros [[<- <-]|[Hne Hp]]%lookup_insert_Some.
    + rewrite Hnone, fold_contribution_own by done. done.
    + rewrite (fold_contribution_other new) by done. by apply Hinv.
  - intros k v. cbn [products product_variants set_products set_product_variants].
    intros [Hv|Hv]%lookup_insert_variants.
    + destruct (Hown k v Hv) as [p Hp]. exists p.
      rewrite lookup_insert_ne; [done|]. intros Heq. congruence.
    + rewrite Forall_forall in Hup. destruct (Hup v Hv) as [-> _].
      rewrite lookup_insert_eq. by eexists.
Qed.

Lemma edit_loop_success pid fvs acc acc' :
  edit_loop pid fvs acc = (None, acc') →
  ea_existing acc' = (ea_existing acc ++ omap fv_id fvs)%list
  ∧ (∀ v, v ∈ ea_toInsert acc' →
       v ∈ ea_toInsert acc
       ∨ ∃ fv, fv ∈ fvs ∧ fv_id fv = None ∧ v_product_id v = pid
               ∧ v_color v = Some (fv_color fv) ∧ v_size v = Some (fv_size fv)
               ∧ v_stock v = Some (fv_stock fv)).
Proof.
  revert acc. induction fvs as [|fv fvs IH]; intros acc; cbn [edit_loop].
  - intros [= <-]. split; [by rewrite app_nil_r | by left].
  - destruct (final_url fv) as [url|]; [|done].
    destruct (fv_id fv) as [k|] eqn:Hid; intros [He Hi]%IH; cbn in He, Hi.
    + split.
      * rewrite He. cbn [omap list_omap]. rewrite Hid. by rewrite <- app_assoc.
      * intros v [?|(fv' & ? & ?)]%Hi; [by left|]. right. exists fv'. split; [by right|done].
    + split.
      * rewrite He. cbn [omap list_omap]. by rewrite Hid.
      * intros v [[?|Hv%list_elem_of_singleton]%elem_of_app|(fv' & ? & ?)]%Hi.
        -- by left.
        -- right. exists fv. subst v. split; [left|done].
        -- right. exists fv'. split; [by right|done].
Qed.

(** After a product edit that reports success, the edited product's stock
    field is the sum of the stock of its variants, and the product has no
    variant the form did not hold: each of its variants is one the form listed
    by key or a row inserted from a form entry without key. *)
Theorem handleEditSave_postcondition st f :
  (handleEditSave st f).1 = "Product updated successfully!" →
  (∀ p, products (handleEditSave st f).2 !! ef_id f = Some p →
     p_stock p = Some (sum_variant_stock (product_variants (handleEditSave st f).2) (ef_id f)))
  ∧ (∀ k v, product_variants (handleEditSave st f).2 !! k = Some v →
       v_product_id v = ef_id f →
       k ∈ omap fv_id (ef_variants f)
       ∨ ∃ fv, fv ∈ ef_variants f ∧ fv_id fv = None
               ∧ v_color v = Some (fv_color fv) ∧ v_size v = Some (fv_size fv)
               ∧ v_stock v = Some (fv_stock fv)).
Proof.
  unfold handleEditSave. destruct (ef_variants f) as [|fv fvs] eqn:Hf; [intros [=]|].
  rewrite <- Hf.
  destruct (edit_loop (ef_id f) (ef_variants f) (EditAcc (product_variants st) [] [] []))
    as [[msg|] acc] eqn:Hloop.
  { cbn [fst]. intros Hmsg. exfalso. clear Hf. revert acc Hloop Hmsg.
    generalize (EditAcc (product_variants st) [] [] []).
    induction (ef_variants f) as [|x l IH]; intros a acc; cbn [edit_loop]; [done|].
    destruct (final_url x).
    - destruct (fv_id x); apply IH.
    - intros [= <- _]. intros [=]. }
  intros _. cbn [snd products product_variants].
  apply edit_loop_success in Hloop as [Hex Hins]. cbn in Hex, Hins. split.
  - intros p. rewrite lookup_alter_eq.
    destruct (alter _ _ (products st) !! ef_id f); [|done]. by intros [= <-].
  - intros k v [Hkept|Hrow]%lookup_insert_variants Hown.
    + apply map_lookup_filter_Some in Hkept as [_ Hk]. cbn in Hk.
      left. rewrite <- Hex. destruct (decide (k ∈ ea_existing acc)); [done|].
      destruct Hk. by split.
    + right. destruct (Hins v Hrow) as [Hnil|(fv' & ? & ? & ? & ?)]; [by inversion Hnil|].
      by exists fv'.
Qed.

(** ** Sold counts *)

Lemma fold_quantity_acc {A} (q : A → Z) (l : list A) (a : Z) :
  fold_left (λ s x, s + q x) l a = a + fold_left (λ s x, s + q x) l 0.
Proof.
  revert a. induction l as [|x l IH]; intros a; cbn [fold_left]; [lia|].
  rewrite (IH (a + q x)), (IH (0 + q x)). lia.
Qed.

Lemma sold_count_app pid l1 l2 :
  sold_count pid (l1 ++ l2) = sold_count pid l1 + sold_count pid l2.
Proof.
  unfold sold_count. rewrite filter_app, fold_left_app.
  by rewrite fold_quantity_acc.
Qed.

Lemma sold_count_snapshot pid oid cart :
  sold_count pid (map (snapshot_item oid) cart) = units_of pid cart.
Proof.
  unfold sold_count, units_of.
  enough (∀ a, fold_left (λ s it, s + num_or 0 (oi_quantity it))
                 (filter (λ it, oi_product_id it = Some pid) (map (snapshot_item oid) cart)) a
               = fold_left (λ s ci, s + num_or 0 (ci_quantity ci))
                   (filter (λ ci, ci_product_id ci = Some pid) cart) a) as H by apply H.
  induction cart as [|c cart IH]; intros a; [done|]. cbn [map].
  destruct (decide (ci_product_id c = Some pid)) as [Hp|Hp].
  - rewrite !filter_cons_True by done. cbn [fold_left]. apply IH.
  - rewrite !filter_cons_False by done. apply IH.
Qed.

(** A successful checkout raises the sold count of every product by the
    units the cart asked of it. *)
Theorem checkout_adds_to_sold_count st uid cartId cart o pid :
  cart ≠ [] →
  check_stock (product_variants st) cart = CheckOk →
  sold_count pid (order_items (placeOrder st (Some uid) cartId cart o).2)
  = sold_count pid (order_items st) + units_of pid cart.
Proof.
  intros Hne Hck. rewrite placeOrder_ok by done. cbn [snd order_items].
  by rewrite sold_count_app, sold_count_snapshot.
Qed.

(** A cancellation, by the customer or by the admin, takes nothing off a sold
    count: cancelled orders stay counted as sold. *)
Theorem cancellation_keeps_sold_count st pid :
  (∀ orderId confirmed,
     sold_count pid (order_items (cancelOrder st orderId confirmed).2)
     = sold_count pid (order_items st))
  ∧ (∀ oid newStatus,
       sold_count pid (order_items (updateStatus st oid newStatus).2)
       = sold_count pid (order_items st)).
Proof.
  split.
  - intros orderId confirmed.
    destruct (run_order_items st (OpCancelOrder orderId confirmed)) as [new Hnew].
    cbn [run] in Hnew. unfold cancelOrder in *.
    destruct orderId as [oid|]; [|done]. destruct (negb confirmed); [done|].
    destruct (cancel_blocked _); [done|]. cbn [snd] in *.
    by destruct (restore_stock_frame oid
                   (set_orders (alter (with_status (Some "cancelled")) oid) st))
      as (_ & -> & _).
  - intros oid ns. unfold updateStatus. destruct (orders st !! oid); [|done]. cbn [snd].
    destruct (restock_on_cancel _ _); [|done].
    by destruct (restore_stock_frame oid (set_orders (alter (with_status ns) oid) st))
      as (_ & -> & _).
Qed.

Lemma sold_map_fold ids items (m : gmap id Z) pid :
  pid ∈ ids →
  sold_shown
    (fold_left (λ (map : gmap id Z) (r : id * option Z),
                  <[r.1 := num_or 0 (map !! r.1) + num_or 0 r.2]> map)
               (sold_rows ids items) m) pid
  = fold_left (λ s it, s + num_or 0 (oi_quantity it))
              (filter (λ it, oi_product_id it = Some pid) items) (sold_shown m pid).
Proof.
  intros Hin. revert m. induction items as [|it items IH]; intros m; [done|].
  unfold sold_rows. cbn [omap list_omap]. fold (sold_rows ids items).
  destruct (oi_product_id it) as [p|] eqn:Hp.
  - case_bool_decide as Hpin.
    + cbn [fold_left fst snd]. rewrite IH. destruct (decide (p = pid)) as [->|Hne].
      * rewrite filter_cons_True by done. cbn [fold_left]. f_equal.
        unfold sold_shown. rewrite lookup_insert_eq. apply num_or_0_Some.
      * rewrite filter_cons_False by congruence. f_equal.
        unfold sold_shown. by rewrite lookup_insert_ne.
    + rewrite filter_cons_False; [apply IH|]. intros Heq. rewrite Hp in Heq.
      by injection Heq as ->.
  - rewrite filter_cons_False by congruence. apply IH.
Qed.

(** The sold figure a product card shows (from the map [loadProducts] builds)
    is the one the product's modal shows (from its own query), for every
    product that was loaded. *)
Theorem sold_map_agrees_with_sold_count ids items prev pid :
  pid ∈ ids →
  sold_shown (load_sold_map ids items prev) pid = sold_count pid items.
Proof.
  intros Hin. unfold load_sold_map. destruct ids as [|i ids]; [by inversion Hin|].
  by rewrite sold_map_fold.
Qed.

(** ** The cart view *)

Lemma cart_view_in_sync st rows : cart_in_sync st (cart_view st rows).
Proof.
  intros ci Hci. unfold cart_view in Hci. apply list_elem_of_In, in_map_iff in Hci.
  destruct Hci as (r & <- & _). done.
Qed.

Lemma lookup_map {A B} (f : A → B) (l : list A) (i : nat) x :
  l !! i = Some x → map f l !! i = Some (f x).
Proof.
  revert i. induction l as [|a l IH]; intros [|i]; cbn; try done.
  - by intros [= ->].
  - apply IH.
Qed.

(** A checkout run on the cart as just loaded from the store charges the
    prices the store holds: the order's total is the sum, in cart order and in
    the floating-point arithmetic of the code, over the lines of the product's
    price in the store times the units charged (the quantity, or one unit when
    the quantity is null or zero), and the order item written for each line
    carries the store's price of its product. *)
Theorem checkout_on_loaded_cart_charges_store_prices st uid cartId rows o :
  rows ≠ [] →
  check_stock (product_variants st) (cart_view st rows) = CheckOk →
  let st' := (placeOrder st (Some uid) cartId (cart_view st rows) o).2 in
  ∃ row,
    orders st' !! new_id (orders st) = Some row
    ∧ o_total row
      = sum_price_times_quantity (current_price st) units_charged (cart_view st rows)
    ∧ ((∀ r, r ∈ rows → ∃ q, cr_quantity r = Some q ∧ q ≠ 0) →
         o_total row
         = sum_price_times_quantity (current_price st) quantity_of (cart_view st rows))
    ∧ length (order_items st') = (length (order_items st) + length rows)%nat
    ∧ (∀ i ci, cart_view st rows !! i = Some ci →
         ∃ it, order_items st' !! (length (order_items st) + i)%nat = Some it
               ∧ oi_order_id it = new_id (orders st)
               ∧ oi_price it = current_price st ci).
Proof.
  intros Hne Hck.
  assert (Hne' : cart_view st rows ≠ []) by (by destruct rows).
  cbv zeta. rewrite placeOrder_ok by done. cbn [snd orders order_items].
  assert (Htotal : order_total (cart_view st rows)
                   = sum_price_times_quantity (current_price st) units_charged
                       (cart_view st rows)).
  { rewrite order_total_sum. apply sum_price_in_sync, cart_view_in_sync. }
  eexists. split; [apply lookup_insert_eq|]. cbn [o_total].
  split; [exact Htotal|]. split; [|split].
  - intros Hq. rewrite Htotal. apply sum_price_ext. intros ci Hci. split; [done|].
    apply list_elem_of_In, in_map_iff in Hci as (r & <- & Hr).
    destruct (Hq r) as (q & Hc & Hq0); [by apply list_elem_of_In|].
    by apply (units_charged_quantity _ q).
  - rewrite length_app, length_map. unfold cart_view. by rewrite length_map.
  - intros i ci Hi. exists (snapshot_item (new_id (orders st)) ci).
    split; [|split; [done|]].
    + rewrite lookup_app_r by lia.
      replace (length (order_items st) + i - length (order_items st))%nat with i by lia.
      by apply lookup_map.
    + cbn [oi_price snapshot_item]. rewrite price_or0_charged. unfold current_price.
      rewrite <- (cart_view_in_sync st rows ci); [done|].
      by eapply list_elem_of_lookup_2.
Qed.

(** [updateCartQty] stores any positive quantity without looking at the
    stock (a quantity of zero or less removes the line, as [removeCartItem]
    does).  When it exceeds the stock of the line's variant, a checkout of the
    reloaded line is refused by the re-check and changes nothing. *)
Theorem updateCartQty_unchecked_then_checkout_refused st itemId r qty v uid cartId o :
  cart_items st !! itemId = Some r →
  fetch_variant (product_variants st) (cr_product_variant_id r) = Some v →
  0 < qty →
  num_or 0 (v_stock v) < qty →
  cart_items (updateCartQty st itemId qty) !! itemId = Some (with_quantity qty r)
  ∧ placeOrder (updateCartQty st itemId qty) (Some uid) cartId
      (cart_view (updateCartQty st itemId qty) [with_quantity qty r]) o
    = (not_enough_msg (join_cart_row (updateCartQty st itemId qty) (with_quantity qty r)) v,
       updateCartQty st itemId qty)
  ∧ (∀ q, q ≤ 0 → updateCartQty st itemId q = removeCartItem st itemId).
Proof.
  intros Hr Hv Hq Hs. unfold updateCartQty.
  destruct (Z.leb_spec qty 0) as [?|_]; [lia|]. split; [|split].
  - cbn. by rewrite lookup_alter_eq, Hr.
  - unfold placeOrder, cart_view. cbn [map check_stock join_cart_row ci_product_variant_id
      with_quantity cr_product_variant_id product_variants set_cart_items ci_quantity
      cr_quantity].
    rewrite Hv, num_or_0_Some.
    destruct (Z.ltb_spec (num_or 0 (v_stock v)) qty) as [_|?]; [done|lia].
  - intros q Hq0. destruct (Z.leb_spec q 0) as [_|?]; [done|lia].
Qed.

(** ** Instances of the further properties *)

Lemma sample_store_consistent s : stock_consistent (sample_store s).
Proof.
  intros pid p Hp. cbn [products sample_store] in Hp.
  apply lookup_singleton_Some in Hp as [<- <-]. vm_compute. reflexivity.
Defined.

Lemma sample_store_owned s : variants_owned (sample_store s).
Proof.
  intros k v Hv. cbn [product_variants sample_store] in Hv.
  apply lookup_singleton_Some in Hv as [<- <-]. exists sample_product. reflexivity.
Defined.

Lemma canCancel_then_cancelOrder_proceeds_witness :
  orders (sample_store "processing") !! 4%positive = Some (sample_order "processing")
  ∧ canCancel (o_status (sample_order "processing")) = true
  ∧ (cancelOrder (sample_store "processing") (Some 4%positive) true).1
    = Some "Order cancelled and stock restored (if applicable)".
Proof.
  split; [reflexivity|]. split; [reflexivity|].
  exact (proj1 (canCancel_then_cancelOrder_proceeds (sample_store "processing") 4%positive
                  (sample_order "processing") eq_refl eq_refl)).
Defined.

Lemma cancelOrder_twice_witness :
  orders (sample_store "processing") !! 4%positive = Some (sample_order "processing")
  ∧ (cancelOrder (cancelOrder (sample_store "processing") (Some 4%positive) true).2
       (Some 4%positive) true).1
    = Some "This order cannot be cancelled".
Proof.
  split; [reflexivity|].
  rewrite (cancelOrder_twice (sample_store "processing") 4%positive
             (sample_order "processing") eq_refl).
  reflexivity.
Defined.

Lemma updateStatus_after_cancel_never_restocks_witness :
  orders (sample_store "processing") !! 4%positive = Some (sample_order "processing")
  ∧ status_lc (Some "Cancelled") = "cancelled"
  ∧ product_variants
      (updateStatus (updateStatus (sample_store "processing") 4 (Some "Cancelled")).2
         4 (Some "Processing")).2
    = product_variants (updateStatus (sample_store "processing") 4 (Some "Cancelled")).2.
Proof.
  split; [reflexivity|]. split; [reflexivity|].
  exact (proj1 (updateStatus_after_cancel_never_restocks (sample_store "processing")
                  4%positive (sample_order "processing") (Some "Cancelled")
                  (Some "Processing") eq_refl eq_refl)).
Defined.

(** The sample order is cancelled, set back to processing and cancelled
    again: the variant goes from three units to five, stays at five, and
    ends with seven. *)
Lemma updateStatus_reopen_then_cancel_restocks_again_witness :
  orders (sample_store "processing") !! 4%positive = Some (sample_order "processing")
  ∧ status_lc (Some "Cancelled") = "cancelled"
  ∧ status_lc (Some "Processing") = "processing"
  ∧ v_stock <$> product_variants
        (updateStatus (sample_store "processing") 4 (Some "Cancelled")).2 !! 7%positive
    = Some (Some 5)
  ∧ v_stock <$> product_variants
        (updateStatus
           (updateStatus (updateStatus (sample_store "processing") 4 (Some "Cancelled")).2
              4 (Some "Processing")).2
           4 (Some "Cancelled")).2 !! 7%positive
    = Some (Some 7).
Proof.
  split; [reflexivity|]. split; [reflexivity|]. split; [reflexivity|].
  destruct (updateStatus_reopen_then_cancel_restocks_again (sample_store "processing")
              4%positive (sample_order "processing") (Some "Cancelled") (Some "Processing")
              (Some "Cancelled") 7%positive sample_variant
              eq_refl (or_intror eq_refl) eq_refl (or_intror eq_refl) eq_refl eq_refl)
    as (H1 & _ & H3).
  split; [rewrite H1 | rewrite H3]; reflexivity.
Defined.

Lemma deleteOrder_restocks_like_cancel_witness :
  orders (sample_store "processing") !! 4%positive = Some (sample_order "processing")
  ∧ product_variants (deleteOrder (sample_store "processing") 4).2
    = product_variants (updateStatus (sample_store "processing") 4 (Some "cancelled")).2.
Proof.
  split; [reflexivity|].
  exact (proj1 (deleteOrder_restocks_like_cancel (sample_store "processing") 4%positive
                  (sample_order "processing") eq_refl)).
Defined.

Lemma checkout_then_cancel_restores_stock_witness :
  [sample_line 2] ≠ []
  ∧ check_stock (product_variants (sample_store "processing")) [sample_line 2] = CheckOk
  ∧ NoDup (line_keys [sample_line 2])
  ∧ (∀ it, it ∈ order_items (sample_store "processing") →
       oi_order_id it ≠ new_id (orders (sample_store "processing")))
  ∧ ∃ v', product_variants
            (cancelOrder
               (placeOrder (sample_store "processing") (Some 3%positive) None
                  [sample_line 2] default_opts).2
               (Some (new_id (orders (sample_store "processing")))) true).2 !! 7%positive
          = Some v'
          ∧ num_or 0 (v_stock v') = num_or 0 (v_stock sample_variant)
          ∧ set_stock (v_stock sample_variant) v' = sample_variant.
Proof.
  assert (H1 : [sample_line 2] ≠ []) by discriminate.
  assert (H2 : check_stock (product_variants (sample_store "processing")) [sample_line 2]
               = CheckOk) by reflexivity.
  assert (H3 : NoDup (line_keys [sample_line 2])) by apply NoDup_singleton.
  assert (H4 : ∀ it, it ∈ order_items (sample_store "processing") →
                 oi_order_id it ≠ new_id (orders (sample_store "processing"))).
  { intros it Hit. apply list_elem_of_singleton in Hit. subst it. vm_compute. discriminate. }
  split; [exact H1|]. split; [exact H2|]. split; [exact H3|]. split; [exact H4|].
  exact (checkout_then_cancel_restores_stock (sample_store "processing") 3%positive None
           [sample_line 2] default_opts _ 7%positive sample_variant H1 H2 H3 H4
           (or_introl eq_refl) eq_refl).
Defined.

Lemma checkout_duplicate_lines_oversell_witness :
  num_or 0 (ci_quantity (sample_line 2)) ≤ num_or 0 (v_stock sample_variant)
  ∧ num_or 0 (v_stock sample_variant)
    < num_or 0 (ci_quantity (sample_line 2)) + num_or 0 (ci_quantity (sample_line 2))
  ∧ (placeOrder (sample_store "processing") (Some 3%positive) None
       [sample_line 2; sample_line 2] default_opts).1 = placed_msg
  ∧ v_stock <$> product_variants
        (placeOrder (sample_store "processing") (Some 3%positive) None
           [sample_line 2; sample_line 2] default_opts).2 !! 7%positive
    = Some (Some 0).
Proof.
  assert (H1 : num_or 0 (ci_quantity (sample_line 2)) ≤ num_or 0 (v_stock sample_variant))
    by (vm_compute; discriminate).
  assert (H2 : num_or 0 (v_stock sample_variant)
               < num_or 0 (ci_quantity (sample_line 2))
                 + num_or 0 (ci_quantity (sample_line 2))) by reflexivity.
  split; [exact H1|]. split; [exact H2|].
  destruct (checkout_duplicate_lines_oversell (sample_store "processing") 3%positive None
              default_opts (sample_line 2) (sample_line 2) 7%positive sample_variant
              eq_refl eq_refl eq_refl H1 H1 H2) as (Hmsg & Hstock & _).
  split; [exact Hmsg | exact Hstock].
Defined.

Lemma placeOrder_keeps_stock_consistent_witness :
  stock_consistent (sample_store "processing")
  ∧ stock_consistent
      (placeOrder (sample_store "processing") (Some 3%positive) None
         [sample_line 2] default_opts).2.
Proof.
  split; [apply sample_store_consistent|].
  apply placeOrder_keeps_stock_consistent, sample_store_consistent.
Defined.

Lemma lifecycle_keeps_stock_consistent_witness :
  stock_consistent (sample_store "processing")
  ∧ stock_consistent
      (run_all (sample_store "processing")
         [OpPlaceOrder (Some 3%positive) None [sample_line 2] default_opts;
          OpCancelOrder (Some 4%positive) true;
          OpUpdateStatus 4 (Some "Cancelled");
          OpDeleteOrder 4]).
Proof.
  split; [apply sample_store_consistent|].
  apply lifecycle_keeps_stock_consistent; [|apply sample_store_consistent].
  repeat constructor.
Defined.

Lemma handleAddProduct_keeps_invariants_witness :
  stock_consistent (sample_store "processing")
  ∧ variants_owned (sample_store "processing")
  ∧ (handleAddProduct (sample_store "processing") sample_add_form).1
    = "Product and variants added successfully!"
  ∧ stock_consistent (handleAddProduct (sample_store "processing") sample_add_form).2.
Proof.
  split; [apply sample_store_consistent|]. split; [apply sample_store_owned|].
  split; [reflexivity|].
  exact (proj1 (handleAddProduct_keeps_invariants (sample_store "processing") sample_add_form
                  (sample_store_consistent "processing") (sample_store_owned "processing"))).
Defined.

Lemma handleEditSave_postcondition_witness :
  (handleEditSave (sample_store "processing") sample_form).1
    = "Product updated successfully!"
  ∧ ∀ p, products (handleEditSave (sample_store "processing") sample_form).2
           !! ef_id sample_form = Some p →
         p_stock p
         = Some (sum_variant_stock
                   (product_variants (handleEditSave (sample_store "processing") sample_form).2)
                   (ef_id sample_form)).
Proof.
  split; [reflexivity|].
  exact (proj1 (handleEditSave_postcondition (sample_store "processing") sample_form eq_refl)).
Defined.

Lemma checkout_adds_to_sold_count_witness :
  [sample_line 2] ≠ []
  ∧ check_stock (product_variants (sample_store "processing")) [sample_line 2] = CheckOk
  ∧ sold_count 1
      (order_items (placeOrder (sample_store "processing") (Some 3%positive) None
                      [sample_line 2] default_opts).2)
    = 4.
Proof.
  assert (H1 : [sample_line 2] ≠ []) by discriminate.
  assert (H2 : check_stock (product_variants (sample_store "processing")) [sample_line 2]
               = CheckOk) by reflexivity.
  split; [exact H1|]. split; [exact H2|].
  rewrite (checkout_adds_to_sold_count (sample_store "processing") 3%positive None
             [sample_line 2] default_opts 1%positive H1 H2).
  reflexivity.
Defined.

Lemma sold_map_agrees_with_sold_count_witness :
  1%positive ∈ [1%positive]
  ∧ sold_shown (load_sold_map [1%positive] [sample_item] ∅) 1 = sold_count 1 [sample_item].
Proof.
  assert (H : 1%positive ∈ [1%positive]) by constructor.
  split; [exact H|].
  exact (sold_map_agrees_with_sold_count [1%positive] [sample_item] ∅ 1%positive H).
Defined.

Lemma checkout_on_loaded_cart_charges_store_prices_witness :
  [sample_cart_row] ≠ []
  ∧ check_stock (product_variants sample_store_with_cart)
      (cart_view sample_store_with_cart [sample_cart_row]) = CheckOk
  ∧ ∃ row,
      orders (placeOrder sample_store_with_cart (Some 3%positive) (Some 9%positive)
                (cart_view sample_store_with_cart [sample_cart_row]) default_opts).2
        !! new_id (orders sample_store_with_cart) = Some row
      ∧ o_total row = 20%float.
Proof.
  assert (H1 : [sample_cart_row] ≠ []) by discriminate.
  assert (H2 : check_stock (product_variants sample_store_with_cart)
                 (cart_view sample_store_with_cart [sample_cart_row]) = CheckOk)
    by reflexivity.
  split; [exact H1|]. split; [exact H2|].
  destruct (checkout_on_loaded_cart_charges_store_prices sample_store_with_cart 3%positive
              (Some 9%positive) [sample_cart_row] default_opts H1 H2)
    as (row & Hrow & Htotal & _).
  exists row. split; [exact Hrow|]. rewrite Htotal. reflexivity.
Defined.

Lemma updateCartQty_unchecked_then_checkout_refused_witness :
  cart_items sample_store_with_cart !! 5%positive = Some sample_cart_row
  ∧ num_or 0 (v_stock sample_variant) < 8
  ∧ cart_items (updateCartQty sample_store_with_cart 5 8) !! 5%positive
    = Some (with_quantity 8 sample_cart_row)
  ∧ (placeOrder (updateCartQty sample_store_with_cart 5 8) (Some 3%positive)
       (Some 9%positive)
       (cart_view (updateCartQty sample_store_with_cart 5 8)
          [with_quantity 8 sample_cart_row]) default_opts).2
    = updateCartQty sample_store_with_cart 5 8.
Proof.
  assert (H1 : cart_items sample_store_with_cart !! 5%positive = Some sample_cart_row)
    by reflexivity.
  assert (H2 : num_or 0 (v_stock sample_variant) < 8) by reflexivity.
  destruct (updateCartQty_unchecked_then_checkout_refused sample_store_with_cart 5%positive
              sample_cart_row 8 sample_variant 3%positive (Some 9%positive) default_opts
              H1 eq_refl eq_refl H2) as (Hrow & Hplace & _).
  split; [exact H1|]. split; [exact H2|]. split; [exact Hrow|].
  rewrite Hplace. reflexivity.
Defined.

Section relay_more_instances.
Import Relay.

Lemma sample_runtime_errors_have_messages : errors_have_messages sample_runtime.
Proof.
  split.
  - intros s err. cbn [JSON_parse sample_runtime]. unfold sample_parse.
    destruct (String.eqb s "{}"); [discriminate|].
    destruct (String.eqb s amount_zero_body); [discriminate|].
    destruct (String.eqb s amount_1500_body); [discriminate|].
    intros [= <-]. eexists. split; [reflexivity|]. discriminate.
  - intros ir err. cbn. discriminate.
Defined.

Lemma sample_runtime_replies_have_metadata : replies_have_metadata sample_runtime.
Proof.
  intros ir pi. cbn [paymentIntents_create sample_runtime]. intros [= <-].
  eexists. split; [reflexivity|]. discriminate.
Defined.


Lemma relay_handlers_agree_witness :
  errors_have_messages sample_runtime
  ∧ replies_have_metadata sample_runtime
  ∧ stripeSecret configured ≠ ""
  ∧ api_handler sample_runtime configured
      (Request "POST" "/create-payment-intent" amount_1500_body)
    = server_handler sample_runtime (Request "POST" "/create-payment-intent" amount_1500_body)
  ∧ status (api_handler sample_runtime configured
              (Request "POST" "/create-payment-intent" amount_1500_body)).1 = 200.
Proof.
  assert (H : stripeSecret configured ≠ "") by discriminate.
  split; [apply sample_runtime_errors_have_messages|].
  split; [apply sample_runtime_replies_have_metadata|]. split; [exact H|].
  split; [|reflexivity].
  exact (relay_handlers_agree sample_runtime configured
           (Request "POST" "/create-payment-intent" amount_1500_body)
           sample_runtime_errors_have_messages sample_runtime_replies_have_metadata
           eq_refl eq_refl H).
Defined.

End relay_more_instances.
